(** * AI Thumbcraft: the flows, the server actions and the page state

    A shallow embedding of the TypeScript sources

      - [src/ai/flows/optimize-prompt.ts]
      - [src/ai/flows/generate-thumbnail-from-prompt.ts]
      - [src/ai/flows/iteratively-edit-thumbnail.ts]
      - [src/ai/flows/batch-generate-thumbnails.ts]
      - [src/ai/flows/intelligent-fusion.ts]
      - [src/app/actions.ts]
      - [src/app/page.tsx]

    Strings are [string]; one character stands for one code unit (every
    template literal of the sources is plain ASCII).  An [async] function is
    a computation of the monad [Async]: it threads the list of provider
    requests issued so far and the console, and completes normally or by
    throwing an [Error].  The hosted model behind [ai.generate] is an
    oracle, a parameter of every flow. *)

From Stdlib Require Import String Ascii List ZArith Lia Bool Arith.
From Stdlib Require Import Floats.SpecFloat.
From Stdlib Require Import Numbers.DecimalString.
Import ListNotations.
Open Scope string_scope.

Set Implicit Arguments.

(* ================================================================= *)
(** ** JavaScript strings *)

(** The double quote and the line feed, which occur inside template
    literals. *)
Definition dq : string := String (ascii_of_nat 34) EmptyString.
Definition nl : string := String (ascii_of_nat 10) EmptyString.

(** [Boolean(s)] for a string: only the empty string is falsy. *)
Definition truthy (s : string) : bool :=
  match s with
  | EmptyString => false
  | String _ _ => true
  end.

(** [Boolean(v)] for a value of type [string | undefined]. *)
Definition truthy_opt (v : option string) : bool :=
  match v with
  | None => false
  | Some s => truthy s
  end.

(** [a || b] on values of type [string | undefined]. *)
Definition js_or (a b : option string) : option string :=
  if truthy_opt a then a else b.

(** [`${v}`] for a value of type [string | undefined]. *)
Definition interpolate (v : option string) : string :=
  match v with
  | None => "undefined"
  | Some s => s
  end.

(** [hay.includes(needle)]. *)
Fixpoint includes (needle hay : string) : bool :=
  prefix needle hay ||
  match hay with
  | EmptyString => false
  | String _ rest => includes needle rest
  end.

(** White space and line terminators of ECMAScript among the code units
    below 256: TAB, LF, VT, FF, CR, SP and NBSP. *)
Definition isWhiteSpace (c : ascii) : bool :=
  match nat_of_ascii c with
  | 9 | 10 | 11 | 12 | 13 | 32 | 160 => true
  | _ => false
  end.

Fixpoint trimStart (s : string) : string :=
  match s with
  | EmptyString => EmptyString
  | String c rest => if isWhiteSpace c then trimStart rest else s
  end.

Fixpoint trimEnd (s : string) : string :=
  match s with
  | EmptyString => EmptyString
  | String c rest =>
      match trimEnd rest with
      | EmptyString => if isWhiteSpace c then EmptyString else String c EmptyString
      | kept => String c kept
      end
  end.

(** [s.trim()]. *)
Definition trim (s : string) : string := trimEnd (trimStart s).

(* ================================================================= *)
(** ** JavaScript numbers *)

(** A [number] is an IEEE 754 binary64 value. *)
Definition Number := spec_float.
Definition prec : Z := 53.
Definition emax : Z := 1024.

(** The number an array length denotes. *)
Definition Number_of_nat (n : nat) : Number :=
  binary_normalize prec emax (Z.of_nat n) 0 false.

(** [a / b]. *)
Definition Number_div (a b : Number) : Number := SFdiv prec emax a b.

Definition Number_isNaN (x : Number) : bool :=
  match x with
  | S754_nan => true
  | _ => false
  end.

(** [`${n}`] for an array length or index. *)
Definition nat_toString (n : nat) : string :=
  NilZero.string_of_uint (Nat.to_uint n).

(** [`${z}`] for an integer-valued number (the model of the optional
    [dominantImage] index covers the safe integers, where [+] is exact and
    the text is the decimal numeral, with a minus sign when negative). *)
Definition Z_toString (z : Z) : string :=
  NilZero.string_of_int (Z.to_int z).

(* ================================================================= *)
(** ** The provider and the monad of async functions *)

(** One element of the [prompt] array of [ai.generate]. *)
Inductive Part : Type :=
| MediaPart (url : string)     (* { media: { url } } *)
| TextPart (text : string).    (* { text } *)

(** The argument of [ai.generate]. *)
Record GenerateRequest : Type := mkRequest {
  model : string;
  system : string;
  prompt : list Part
}.

Record Media : Type := mkMedia { url : string }.

(** What the flows read of the response of [ai.generate]:
    [response.text], [response.output?.text] and [response.media]. *)
Record GenerateResponse : Type := mkResponse {
  text : option string;
  output_text : option string;
  media : option Media
}.

(** [media?.url], as a value of type [string | undefined]. *)
Definition media_url (m : option Media) : option string :=
  match m with
  | None => None
  | Some x => Some (url x)
  end.

Record Error : Type := mkError { message : string }.

(** How the evaluation of a body ends. *)
Inductive Completion (A : Type) : Type :=
| Normal (value : A)
| Throw (error : Error).
Arguments Normal {A} value.
Arguments Throw {A} error.

(** The effects a flow can have besides its result. *)
Record Effects : Type := mkEffects {
  calls : list GenerateRequest;   (* requests sent to the provider, oldest first *)
  console : list string           (* labels of console.error lines *)
}.

Definition no_effects : Effects := mkEffects [] [].

Definition Async (A : Type) : Type := Effects -> Completion A * Effects.

Definition ret {A} (a : A) : Async A := fun fx => (Normal a, fx).

Definition throw {A} (e : Error) : Async A := fun fx => (Throw e, fx).

Definition bind {A B} (m : Async A) (k : A -> Async B) : Async B :=
  fun fx =>
    match m fx with
    | (Normal a, fx') => k a fx'
    | (Throw e, fx') => (Throw e, fx')
    end.

Notation "x <- m ;; k" := (bind m (fun x => k))
  (at level 61, m at next level, right associativity).
Notation "m ;;; k" := (bind m (fun _ => k))
  (at level 61, right associativity).

(** [try { body } catch (error) { handler }]. *)
Definition try_catch {A} (body : Async A) (handler : Error -> Async A) : Async A :=
  fun fx =>
    match body fx with
    | (Normal a, fx') => (Normal a, fx')
    | (Throw e, fx') => handler e fx'
    end.

Definition console_error (label : string) : Async unit :=
  fun fx => (Normal tt, mkEffects (calls fx) (console fx ++ [label])).

(** The hosted model: what the [n]-th call of the session (counting from
    0) answers to a request. *)
Definition Provider : Type := nat -> GenerateRequest -> Completion GenerateResponse.

(** [await ai.generate(request)]. *)
Definition ai_generate (ai : Provider) (request : GenerateRequest)
  : Async GenerateResponse :=
  fun fx =>
    (ai (List.length (calls fx)) request,
     mkEffects (calls fx ++ [request]) (console fx)).

(** The error of a refused input; the flows never look at its message. *)
Definition schema_error : Error := mkError "Schema validation failed.".

(** Modelled from the spec: [ai.defineFlow] belongs to the genkit package,
    whose code is not among the sources.  The spec has input validation
    reject a request before any network call: the input is checked against
    [inputSchema] before [fn] runs, and an input the schema refuses makes
    the flow throw without entering [fn].  What [fn] returns is passed on
    as it is. *)

Definition defineFlow {I O} (inputSchema : I -> bool) (fn : I -> Async O)
  : I -> Async O :=
  fun input => if inputSchema input then fn input else throw schema_error.

(** [for (let i = start; i < start + count; i++) body], the loop state
    being what the body mutates. *)
Fixpoint for_loop {St} (count start : nat) (body : nat -> St -> Async St) (s : St)
  : Async St :=
  match count with
  | O => ret s
  | S count' => s' <- body start s ;; for_loop count' (S start) body s'
  end.

(* ================================================================= *)
(** ** Shared enumerations *)

Inductive AspectRatio : Type := R16_9 | R9_16 | R1_1.

(** The string value of the enumeration member. *)
Definition ratio_string (r : AspectRatio) : string :=
  match r with
  | R16_9 => "16:9"
  | R9_16 => "9:16"
  | R1_1 => "1:1"
  end.

Definition is_9_16 (r : AspectRatio) : bool :=
  match r with
  | R9_16 => true
  | _ => false
  end.

Definition image_model : string := "googleai/gemini-2.5-flash-image-preview".
Definition text_model : string := "googleai/gemini-2.5-flash".

(** [urls.filter(Boolean).map(url => ({media: {url}}))] and the
    [if (input.imageN) mediaParts.push(...)] sequence, which agree. *)
Fixpoint media_parts (images : list (option string)) : list Part :=
  match images with
  | [] => []
  | Some u :: rest => if truthy u then MediaPart u :: media_parts rest else media_parts rest
  | None :: rest => media_parts rest
  end.

(* ================================================================= *)
(** ** optimize-prompt.ts *)

Module OptimizePrompt.

Record Input : Type := mkInput {
  prompt : string;
  aspectRatio : AspectRatio;
  image1 : option string;
  image2 : option string;
  image3 : option string
}.

Record Output : Type := mkOutput { optimizedPrompt : string }.

(** [OptimizePromptInputSchema]: a string, a member of the enumeration and
    three optional strings, which every [Input] is. *)
Definition InputSchema (_ : Input) : bool := true.

Definition imageParts (input : Input) : list Part :=
  media_parts [image1 input; image2 input; image3 input].

Definition providedImagesCount (input : Input) : nat :=
  List.length (imageParts input).

Definition assetContext (input : Input) : string :=
  match providedImagesCount input with
  | O => "No reference images were provided."
  | n =>
      "The user also provided " ++ nat_toString n ++ " reference image"
      ++ (if (1 <? n)%nat then "s" else "")
      ++ ". Consider them when composing the scene."
  end.

Definition ratioRule (r : AspectRatio) : string :=
  if is_9_16 r
  then "The final image MUST have an aspect ratio of exactly 9:16 (vertical). Do not add any padding or black bars. Do NOT crop or cut any text or subjects; instead, scale and reposition elements so that all content remains fully inside the 9:16 frame with comfortable safe margins."
  else "The final image MUST have an aspect ratio of exactly " ++ ratio_string r
       ++ ". Do not add any padding or black bars. Crop the image to fit the requested aspect ratio if necessary.".

Definition system_instruction (r : AspectRatio) : string :=
  "You are an expert prompt engineer for a text-to-image model. Your task is to take a user's simple prompt and expand it into a rich, detailed, and creative prompt that will generate a visually stunning and effective thumbnail." ++ nl
  ++ nl
  ++ "You must follow these rules:" ++ nl
  ++ "1.  **Incorporate Aspect Ratio**: " ++ ratioRule r ++ nl
  ++ "2.  **Describe Composition**: Detail the layout, including subject placement, background elements, and foreground details. Use terms like "
  ++ dq ++ "rule of thirds," ++ dq ++ " " ++ dq ++ "leading lines," ++ dq ++ " "
  ++ dq ++ "depth of field," ++ dq ++ " etc." ++ nl
  ++ "3.  **Specify Style**: Define the artistic style. Examples: "
  ++ dq ++ "hyper-realistic photo," ++ dq ++ " " ++ dq ++ "cinematic 4k," ++ dq ++ " "
  ++ dq ++ "digital painting," ++ dq ++ " " ++ dq ++ "anime style," ++ dq ++ " "
  ++ dq ++ "vibrant illustration," ++ dq ++ " " ++ dq ++ "dramatic lighting." ++ dq ++ nl
  ++ "4.  **Enhance Details**: Add specific details about colors, lighting, textures, and mood. Be descriptive and evocative." ++ nl
  ++ "5.  **Incorporate User Images**: If the user has provided reference images, your prompt should instruct the image model to incorporate them creatively into the final composition." ++ nl
  ++ "6.  **Keep it a single paragraph. Do not use lists or bullet points.**" ++ nl
  ++ "7.  **Output only the prompt itself, with no extra text or explanation.**".

Definition request (input : Input) : GenerateRequest :=
  mkRequest text_model
    (system_instruction (aspectRatio input))
    (imageParts input
     ++ [TextPart ("User prompt: " ++ dq ++ prompt input ++ dq ++ nl
                   ++ "Aspect ratio: " ++ ratio_string (aspectRatio input) ++ nl
                   ++ assetContext input)]).

(** The template both fallback paths build. *)
Definition fallback (input : Input) : string :=
  trim ("Create an eye-catching thumbnail. Aspect ratio: "
        ++ ratio_string (aspectRatio input)
        ++ ". Crop to fit with no padding or black bars. Emphasize strong composition (rule of thirds, leading lines), clear subject separation, and dramatic lighting. Reflect the following intent: "
        ++ prompt input ++ ". "
        ++ (match providedImagesCount input with
            | O => ""
            | _ => "Incorporate the provided reference images appropriately."
            end)).

(** The body of [optimizePromptFlow].  The [try] block either leaves the
    response in [response] or, in its [catch], returns from the function. *)
Definition fn (ai : Provider) (input : Input) : Async Output :=
  attempt <-
    try_catch
      (response <- ai_generate ai (request input) ;; ret (inl response))
      (fun _ =>
         console_error "optimizePrompt: model call failed" ;;;
         ret (inr (mkOutput (fallback input)))) ;;
  match attempt with
  | inr returned => ret returned
  | inl response =>
      let finalText := js_or (text response) (output_text response) in
      match finalText with
      | Some final =>
          if negb (truthy final)
          then console_error "optimizePrompt: empty response from model" ;;;
               ret (mkOutput (fallback input))
          else ret (mkOutput final)
      | None =>
          console_error "optimizePrompt: empty response from model" ;;;
          ret (mkOutput (fallback input))
      end
  end.

Definition optimizePromptFlow (ai : Provider) : Input -> Async Output :=
  defineFlow InputSchema (fn ai).

Definition optimizePrompt (ai : Provider) (input : Input) : Async Output :=
  optimizePromptFlow ai input.

End OptimizePrompt.

(* ================================================================= *)
(** ** generate-thumbnail-from-prompt.ts *)

Module GenerateThumbnail.

Record Input : Type := mkInput {
  prompt : string;
  image1 : option string;
  image2 : option string;
  image3 : option string;
  aspectRatio : AspectRatio
}.

Record Output : Type := mkOutput { thumbnail : string }.

Definition InputSchema (_ : Input) : bool := true.

Definition mediaParts (input : Input) : list Part :=
  media_parts [image1 input; image2 input; image3 input].

Definition system_instruction (r : AspectRatio) : string :=
  "You are an expert image generator." ++ nl
  ++ (if is_9_16 r
      then "You MUST generate an image with an aspect ratio of EXACTLY 9:16 (vertical). Do not add any padding or black bars. Do NOT crop or cut any text or subjects; instead, scale and reposition elements so that all content remains fully inside the 9:16 frame with comfortable safe margins."
      else "You MUST generate an image with an aspect ratio of EXACTLY " ++ ratio_string r
           ++ ". Do not add any padding or black bars. Crop the image to fit the requested aspect ratio if necessary.")
  ++ nl.

Definition request (input : Input) : GenerateRequest :=
  mkRequest image_model
    (system_instruction (aspectRatio input))
    (mediaParts input ++ [TextPart ("User prompt: " ++ prompt input)]).

Definition no_image : Error := mkError "Image generation did not return an image.".

(** The body of [generateThumbnailFromPromptFlow]. *)
Definition fn (ai : Provider) (input : Input) : Async Output :=
  response <- ai_generate ai (request input) ;;
  match media_url (media response) with
  | Some u => if negb (truthy u) then throw no_image else ret (mkOutput u)
  | None => throw no_image
  end.

Definition generateThumbnailFromPromptFlow (ai : Provider) : Input -> Async Output :=
  defineFlow InputSchema (fn ai).

Definition generateThumbnailFromPrompt (ai : Provider) (input : Input) : Async Output :=
  generateThumbnailFromPromptFlow ai input.

End GenerateThumbnail.

(* ================================================================= *)
(** ** iteratively-edit-thumbnail.ts *)

Module EditThumbnail.

Record Input : Type := mkInput {
  baseImage : string;
  prompt : string;
  aspectRatio : AspectRatio
}.

Record Output : Type := mkOutput { editedThumbnail : string }.

Definition InputSchema (_ : Input) : bool := true.

Definition system_instruction (r : AspectRatio) : string :=
  "You are an expert image editor." ++ nl
  ++ (if is_9_16 r
      then "You MUST edit the image to have an aspect ratio of EXACTLY 9:16 (vertical). Do not add any padding or black bars. Do NOT crop or cut any text or subjects; instead, scale and reposition elements so that all content remains fully inside the 9:16 frame with comfortable safe margins."
      else "You MUST edit the image to have an aspect ratio of EXACTLY " ++ ratio_string r
           ++ ". Do not add any padding or black bars. Crop the image to fit the requested aspect ratio if necessary.")
  ++ nl.

Definition request (input : Input) : GenerateRequest :=
  mkRequest image_model
    (system_instruction (aspectRatio input))
    [MediaPart (baseImage input); TextPart ("User edit prompt: " ++ prompt input)].

Definition no_image : Error := mkError "Failed to generate or edit thumbnail.".

(** The body of [iterativelyEditThumbnailFlow]; the test is
    [!media || !media.url]. *)
Definition fn (ai : Provider) (input : Input) : Async Output :=
  response <- ai_generate ai (request input) ;;
  match media response with
  | None => throw no_image
  | Some m => if negb (truthy (url m)) then throw no_image else ret (mkOutput (url m))
  end.

Definition iterativelyEditThumbnailFlow (ai : Provider) : Input -> Async Output :=
  defineFlow InputSchema (fn ai).

Definition iterativelyEditThumbnail (ai : Provider) (input : Input) : Async Output :=
  iterativelyEditThumbnailFlow ai input.

End EditThumbnail.

(* ================================================================= *)
(** ** batch-generate-thumbnails.ts *)

Module BatchGenerate.

Inductive ConsistencyMode : Type := character | style | theme | none.

Definition mode_string (m : ConsistencyMode) : string :=
  match m with
  | character => "character"
  | style => "style"
  | theme => "theme"
  | none => "none"
  end.

Record Input : Type := mkInput {
  prompts : list string;
  basePrompt : string;
  aspectRatio : AspectRatio;
  styleReference : option string;
  characterReference : option string;
  consistencyMode : ConsistencyMode
}.

(** One element of the [thumbnails] array. *)
Record Thumbnail : Type := mkThumbnail {
  image : string;
  prompt : string;
  index : nat
}.

Record Output : Type := mkOutput {
  thumbnails : list Thumbnail;
  consistency_score : Number
}.

(** [BatchGenerateInputSchema] puts no bound on the [prompts] array. *)
Definition InputSchema (_ : Input) : bool := true.

(** The [if / else if / else if] chain that sets [consistencyInstruction]
    and fills [referenceImages]. *)
Definition consistency (input : Input) : string * list Part :=
  match consistencyMode input, characterReference input, styleReference input with
  | character, Some ref, _ =>
      if truthy ref
      then (" CRITICAL: Maintain exact character consistency - same facial features, hair, clothing style, and character design as shown in the reference image. The character should be immediately recognizable across all variations.",
            [MediaPart ref])
      else ("", [])
  | style, _, Some ref =>
      if truthy ref
      then (" CRITICAL: Apply the exact artistic style, color palette, lighting technique, brushwork, and visual treatment from the reference image to create a cohesive series.",
            [MediaPart ref])
      else ("", [])
  | theme, _, _ =>
      (" CRITICAL: Maintain thematic consistency - same mood, color scheme, composition style, and visual hierarchy across all thumbnails in this series.",
       [])
  | _, _, _ => ("", [])
  end.

Definition consistencyInstruction (input : Input) : string := fst (consistency input).
Definition referenceImages (input : Input) : list Part := snd (consistency input).

Definition optimized_for (r : AspectRatio) : string :=
  match r with
  | R16_9 => "YouTube thumbnails"
  | R9_16 => "vertical social media"
  | R1_1 => "square social posts"
  end.

Definition enhancedPrompt (input : Input) (prompt : string) : string :=
  basePrompt input ++ " " ++ prompt ++ consistencyInstruction input ++ " " ++ nl
  ++ "      " ++ nl
  ++ "      TECHNICAL REQUIREMENTS:" ++ nl
  ++ "      - Aspect ratio: exactly " ++ ratio_string (aspectRatio input) ++ nl
  ++ "      - Professional thumbnail quality with high visual impact" ++ nl
  ++ "      - Clear focal point and readable text elements" ++ nl
  ++ "      - Consistent branding and style throughout the series" ++ nl
  ++ "      - Optimized for " ++ optimized_for (aspectRatio input).

Definition system_instruction (input : Input) : string :=
  "You are an expert thumbnail designer specializing in creating consistent, high-impact visual series. You excel at maintaining visual consistency across multiple designs while ensuring each thumbnail is unique and engaging." ++ nl
  ++ nl
  ++ (if is_9_16 (aspectRatio input)
      then "Generate vertical 9:16 thumbnails. Keep all text and visual elements fully inside the frame with comfortable safe margins. Do NOT crop or cut any content; instead, scale and reposition elements to fit the vertical format."
      else "Generate thumbnails with exact aspect ratio " ++ ratio_string (aspectRatio input)
           ++ ". Ensure all elements fit properly within the frame.") ++ nl
  ++ nl
  ++ "Focus on:" ++ nl
  ++ "- Visual consistency "
  ++ (match consistencyMode input with
      | none => ""
      | m => "(" ++ mode_string m ++ " consistency is CRITICAL)"
      end) ++ nl
  ++ "- High contrast and readability" ++ nl
  ++ "- Professional design quality" ++ nl
  ++ "- Thumbnail-optimized composition" ++ nl
  ++ "- Clear visual hierarchy".

(** The request of the loop's iteration for [prompt]. *)
Definition request (input : Input) (prompt : string) : GenerateRequest :=
  mkRequest image_model
    (system_instruction input)
    (referenceImages input ++ [TextPart (enhancedPrompt input prompt)]).

(** One iteration of the loop: [i] is below [input.prompts.length], so
    [input.prompts[i]] is an element of the array. *)
Definition iteration (ai : Provider) (input : Input) (i : nat)
    (thumbnails : list Thumbnail) : Async (list Thumbnail) :=
  let prompt := nth i (prompts input) "" in
  try_catch
    (response <- ai_generate ai (request input prompt) ;;
     match media_url (media response) with
     | Some u =>
         if truthy u
         then ret (thumbnails ++ [mkThumbnail u prompt i])%list
         else ret thumbnails
     | None => ret thumbnails
     end)
    (fun _ =>
       console_error ("Batch generation failed for prompt " ++ nat_toString i ++ ":") ;;;
       ret thumbnails).

(** The body of [batchGenerateFlow]. *)
Definition fn (ai : Provider) (input : Input) : Async Output :=
  thumbnails <- for_loop (List.length (prompts input)) 0 (iteration ai input) [] ;;
  ret (mkOutput thumbnails
         (Number_div (Number_of_nat (List.length thumbnails))
                     (Number_of_nat (List.length (prompts input))))).

Definition batchGenerateFlow (ai : Provider) : Input -> Async Output :=
  defineFlow InputSchema (fn ai).

Definition batchGenerateThumbnails (ai : Provider) (input : Input) : Async Output :=
  batchGenerateFlow ai input.

End BatchGenerate.

(* ================================================================= *)
(** ** intelligent-fusion.ts *)

Module IntelligentFusion.

Inductive FusionStyle : Type := seamless | collage | overlay | blend | composite.

Inductive CreativityLevel : Type := conservative | balanced | creative | experimental.

Definition style_string (s : FusionStyle) : string :=
  match s with
  | seamless => "seamless"
  | collage => "collage"
  | overlay => "overlay"
  | blend => "blend"
  | composite => "composite"
  end.

Definition level_string (l : CreativityLevel) : string :=
  match l with
  | conservative => "conservative"
  | balanced => "balanced"
  | creative => "creative"
  | experimental => "experimental"
  end.

Record Input : Type := mkInput {
  images : list string;
  fusionPrompt : string;
  aspectRatio : AspectRatio;
  fusionStyle : FusionStyle;
  dominantImage : option Z;
  creativityLevel : CreativityLevel
}.

Record TechnicalDetails : Type := mkDetails {
  primaryElements : list string;
  fusionTechnique : string;
  aspectRatioHandling : string
}.

Record Output : Type := mkOutput {
  fusedImage : string;
  fusionDescription : string;
  technicalDetails : TechnicalDetails
}.

(** [IntelligentFusionInputSchema]: [images] is
    [z.array(z.string()).min(2).max(4)]; [dominantImage] is
    [z.number().optional()], with no bound. *)
Definition InputSchema (input : Input) : bool :=
  (2 <=? List.length (images input))%nat && (List.length (images input) <=? 4)%nat.

Definition analysisPrompt (input : Input) : string :=
  "Analyze these " ++ nat_toString (List.length (images input)) ++ " images and describe:" ++ nl
  ++ "1. The main subject/content of each image" ++ nl
  ++ "2. The artistic style and visual characteristics" ++ nl
  ++ "3. The lighting and color palette" ++ nl
  ++ "4. How they could be best combined for a " ++ style_string (fusionStyle input) ++ " fusion" ++ nl
  ++ "5. Potential challenges in combining them" ++ nl
  ++ nl
  ++ "Target fusion goal: " ++ fusionPrompt input ++ nl
  ++ "Creativity level: " ++ level_string (creativityLevel input).

Definition analysis_request (input : Input) : GenerateRequest :=
  mkRequest text_model
    "You are an expert visual analyst specializing in image composition and fusion techniques. Provide detailed, technical analysis for optimal image combination."
    (map MediaPart (images input) ++ [TextPart (analysisPrompt input)]).

Definition fusionInstructions (s : FusionStyle) : string :=
  match s with
  | seamless => "Create a seamless blend where all images flow naturally together with smooth transitions and unified lighting."
  | collage => "Arrange the images in an artistic collage layout with clear boundaries but harmonious composition."
  | overlay => "Layer the images with creative overlays, transparency effects, and depth to create visual interest."
  | blend => "Blend the images together using advanced mixing techniques, creating new visual relationships between elements."
  | composite => "Create a professional composite combining the best elements from each image into a cohesive new design."
  end.

Definition creativityInstructions (l : CreativityLevel) : string :=
  match l with
  | conservative => "Maintain the original character of each image while combining them respectfully."
  | balanced => "Balance preservation of original elements with creative new combinations."
  | creative => "Take creative liberties to produce something new and visually striking."
  | experimental => "Push creative boundaries and experiment with unexpected combinations and effects."
  end.

Definition dominantInstruction (input : Input) : string :=
  match dominantImage input with
  | Some d => " Use image " ++ Z_toString (d + 1) ++ " as the dominant base composition."
  | None => ""
  end.

(** The text of the second request; [analysis] is [analysisResponse.text]. *)
Definition fusion_text (input : Input) (analysis : option string) : string :=
  fusionPrompt input ++ nl
  ++ nl
  ++ "FUSION SPECIFICATIONS:" ++ nl
  ++ "- Style: " ++ fusionInstructions (fusionStyle input) ++ nl
  ++ "- Creativity: " ++ creativityInstructions (creativityLevel input) ++ nl
  ++ "- Aspect ratio: exactly " ++ ratio_string (aspectRatio input)
  ++ dominantInstruction input ++ nl
  ++ "- Ensure all elements work together harmoniously" ++ nl
  ++ "- Maintain high visual quality and professional finish" ++ nl
  ++ nl
  ++ "ANALYSIS CONTEXT: " ++ interpolate analysis.

Definition system_instruction (r : AspectRatio) : string :=
  "You are a master digital artist specializing in intelligent image fusion. You excel at combining multiple images into cohesive, visually stunning compositions using advanced AI-guided techniques." ++ nl
  ++ nl
  ++ (if is_9_16 r
      then "Create a vertical 9:16 composition. Ensure all fused elements fit perfectly within the vertical frame with proper spacing and composition."
      else "Create a composition with exact aspect ratio " ++ ratio_string r
           ++ ". Optimize the layout for this specific format.") ++ nl
  ++ nl
  ++ "Your expertise includes:" ++ nl
  ++ "- Advanced composition techniques" ++ nl
  ++ "- Seamless element integration  " ++ nl
  ++ "- Professional color harmony" ++ nl
  ++ "- Visual flow and hierarchy" ++ nl
  ++ "- Technical precision in fusion".

Definition fusion_request (input : Input) (analysis : option string) : GenerateRequest :=
  mkRequest image_model
    (system_instruction (aspectRatio input))
    (map MediaPart (images input) ++ [TextPart (fusion_text input analysis)]).

Definition no_image : Error := mkError "Intelligent fusion failed to generate image.".

Definition result (input : Input) (fused : string) : Output :=
  mkOutput fused
    ("Successfully fused " ++ nat_toString (List.length (images input)) ++ " images using "
     ++ style_string (fusionStyle input) ++ " technique with "
     ++ level_string (creativityLevel input) ++ " creativity level.")
    (mkDetails
       (map (fun i => "Elements from image " ++ nat_toString (i + 1))
            (seq 0 (List.length (images input))))
       (style_string (fusionStyle input))
       ("Optimized for " ++ ratio_string (aspectRatio input) ++ " format")).

(** The body of [intelligentFusionFlow]. *)
Definition fn (ai : Provider) (input : Input) : Async Output :=
  analysisResponse <- ai_generate ai (analysis_request input) ;;
  response <- ai_generate ai (fusion_request input (text analysisResponse)) ;;
  match media_url (media response) with
  | Some u => if negb (truthy u) then throw no_image else ret (result input u)
  | None => throw no_image
  end.

Definition intelligentFusionFlow (ai : Provider) : Input -> Async Output :=
  defineFlow InputSchema (fn ai).

Definition intelligentFusion (ai : Provider) (input : Input) : Async Output :=
  intelligentFusionFlow ai input.

End IntelligentFusion.

(* ================================================================= *)
(** ** actions.ts *)

Module Actions.

(** [{success: true, ...payload}] or [{success: false, error}]. *)
Inductive ActionResult (A : Type) : Type :=
| Success (payload : A)
| Failure (error : string).
Arguments Success {A} payload.
Arguments Failure {A} error.

(** Each handler is
    [try { const result = await flow(input); return {success: true, ...}; }
     catch (error) { console.error(label, error);
                     return {success: false, error: error.message}; }];
    the payload of a success is the field, or the fields, the handler
    copies from the flow's result. *)
Definition optimizePromptAction (ai : Provider) (input : OptimizePrompt.Input)
  : Async (ActionResult string) :=
  try_catch
    (result <- OptimizePrompt.optimizePrompt ai input ;;
     ret (Success (OptimizePrompt.optimizedPrompt result)))
    (fun error =>
       console_error "Error optimizing prompt:" ;;;
       ret (Failure (message error))).

Definition generateThumbnailAction (ai : Provider) (input : GenerateThumbnail.Input)
  : Async (ActionResult string) :=
  try_catch
    (result <- GenerateThumbnail.generateThumbnailFromPrompt ai input ;;
     ret (Success (GenerateThumbnail.thumbnail result)))
    (fun error =>
       console_error "Error generating thumbnail:" ;;;
       ret (Failure (message error))).

Definition editThumbnailAction (ai : Provider) (input : EditThumbnail.Input)
  : Async (ActionResult string) :=
  try_catch
    (result <- EditThumbnail.iterativelyEditThumbnail ai input ;;
     ret (Success (EditThumbnail.editedThumbnail result)))
    (fun error =>
       console_error "Error editing thumbnail:" ;;;
       ret (Failure (message error))).

Definition batchGenerateAction (ai : Provider) (input : BatchGenerate.Input)
  : Async (ActionResult BatchGenerate.Output) :=
  try_catch
    (result <- BatchGenerate.batchGenerateThumbnails ai input ;;
     ret (Success result))
    (fun error =>
       console_error "Error in batch generation:" ;;;
       ret (Failure (message error))).

Definition intelligentFusionAction (ai : Provider) (input : IntelligentFusion.Input)
  : Async (ActionResult IntelligentFusion.Output) :=
  try_catch
    (result <- IntelligentFusion.intelligentFusion ai input ;;
     ret (Success result))
    (fun error =>
       console_error "Error in intelligent fusion:" ;;;
       ret (Failure (message error))).

End Actions.

(* ================================================================= *)
(** ** page.tsx: the state of the page and its handlers *)

Module HistoryEntry.

Record t : Type := make {
  prompt : string;
  image : string;
  timestamp : Z;
  aspectRatio : AspectRatio
}.

End HistoryEntry.

Module Page.

Definition MAX_IMAGES : Z := 3.

Inductive ConsistencyMode : Type := character | style | none.

(** A call of [toast({variant: 'destructive', title, description})]. *)
Record Toast : Type := mkToast {
  title : string;
  description : string
}.

(** The [useState] cells of [AIPage], and the toasts shown so far. *)
Record State : Type := mkState {
  uploadedImages : list string;
  prompt : string;
  optimizedPrompt : string;
  aspectRatio : AspectRatio;
  generatedThumbnail : option string;
  editPrompt : string;
  isOptimizing : bool;
  isLoading : bool;
  isEditing : bool;
  generationHistory : list HistoryEntry.t;
  selectedStyleReference : string;
  consistencyMode : ConsistencyMode;
  batchCount : nat;
  currentVariation : nat;
  toasts : list Toast
}.

Definition initial : State :=
  mkState [] "" "" R1_1 None "" false false false [] "" none 1 0 [].

(** The setters; each replaces one cell. *)
Definition setUploadedImages (v : list string) (s : State) : State :=
  mkState v (prompt s) (optimizedPrompt s) (aspectRatio s) (generatedThumbnail s)
    (editPrompt s) (isOptimizing s) (isLoading s) (isEditing s) (generationHistory s)
    (selectedStyleReference s) (consistencyMode s) (batchCount s) (currentVariation s)
    (toasts s).

Definition setPrompt (v : string) (s : State) : State :=
  mkState (uploadedImages s) v (optimizedPrompt s) (aspectRatio s) (generatedThumbnail s)
    (editPrompt s) (isOptimizing s) (isLoading s) (isEditing s) (generationHistory s)
    (selectedStyleReference s) (consistencyMode s) (batchCount s) (currentVariation s)
    (toasts s).

Definition setOptimizedPrompt (v : string) (s : State) : State :=
  mkState (uploadedImages s) (prompt s) v (aspectRatio s) (generatedThumbnail s)
    (editPrompt s) (isOptimizing s) (isLoading s) (isEditing s) (generationHistory s)
    (selectedStyleReference s) (consistencyMode s) (batchCount s) (currentVariation s)
    (toasts s).

Definition setAspectRatio (v : AspectRatio) (s : State) : State :=
  mkState (uploadedImages s) (prompt s) (optimizedPrompt s) v (generatedThumbnail s)
    (editPrompt s) (isOptimizing s) (isLoading s) (isEditing s) (generationHistory s)
    (selectedStyleReference s) (consistencyMode s) (batchCount s) (currentVariation s)
    (toasts s).

Definition setGeneratedThumbnail (v : option string) (s : State) : State :=
  mkState (uploadedImages s) (prompt s) (optimizedPrompt s) (aspectRatio s) v
    (editPrompt s) (isOptimizing s) (isLoading s) (isEditing s) (generationHistory s)
    (selectedStyleReference s) (consistencyMode s) (batchCount s) (currentVariation s)
    (toasts s).

Definition setEditPrompt (v : string) (s : State) : State :=
  mkState (uploadedImages s) (prompt s) (optimizedPrompt s) (aspectRatio s)
    (generatedThumbnail s) v (isOptimizing s) (isLoading s) (isEditing s)
    (generationHistory s) (selectedStyleReference s) (consistencyMode s) (batchCount s)
    (currentVariation s) (toasts s).

Definition setIsOptimizing (v : bool) (s : State) : State :=
  mkState (uploadedImages s) (prompt s) (optimizedPrompt s) (aspectRatio s)
    (generatedThumbnail s) (editPrompt s) v (isLoading s) (isEditing s)
    (generationHistory s) (selectedStyleReference s) (consistencyMode s) (batchCount s)
    (currentVariation s) (toasts s).

Definition setIsLoading (v : bool) (s : State) : State :=
  mkState (uploadedImages s) (prompt s) (optimizedPrompt s) (aspectRatio s)
    (generatedThumbnail s) (editPrompt s) (isOptimizing s) v (isEditing s)
    (generationHistory s) (selectedStyleReference s) (consistencyMode s) (batchCount s)
    (currentVariation s) (toasts s).

Definition setIsEditing (v : bool) (s : State) : State :=
  mkState (uploadedImages s) (prompt s) (optimizedPrompt s) (aspectRatio s)
    (generatedThumbnail s) (editPrompt s) (isOptimizing s) (isLoading s) v
    (generationHistory s) (selectedStyleReference s) (consistencyMode s) (batchCount s)
    (currentVariation s) (toasts s).

(** [setGenerationHistory(update)], with a function of the previous value. *)
Definition setGenerationHistory (update : list HistoryEntry.t -> list HistoryEntry.t)
    (s : State) : State :=
  mkState (uploadedImages s) (prompt s) (optimizedPrompt s) (aspectRatio s)
    (generatedThumbnail s) (editPrompt s) (isOptimizing s) (isLoading s) (isEditing s)
    (update (generationHistory s)) (selectedStyleReference s) (consistencyMode s)
    (batchCount s) (currentVariation s) (toasts s).

Definition setSelectedStyleReference (v : string) (s : State) : State :=
  mkState (uploadedImages s) (prompt s) (optimizedPrompt s) (aspectRatio s)
    (generatedThumbnail s) (editPrompt s) (isOptimizing s) (isLoading s) (isEditing s)
    (generationHistory s) v (consistencyMode s) (batchCount s) (currentVariation s)
    (toasts s).

Definition setConsistencyMode (v : ConsistencyMode) (s : State) : State :=
  mkState (uploadedImages s) (prompt s) (optimizedPrompt s) (aspectRatio s)
    (generatedThumbnail s) (editPrompt s) (isOptimizing s) (isLoading s) (isEditing s)
    (generationHistory s) (selectedStyleReference s) v (batchCount s) (currentVariation s)
    (toasts s).

Definition toast (t : Toast) (s : State) : State :=
  mkState (uploadedImages s) (prompt s) (optimizedPrompt s) (aspectRatio s)
    (generatedThumbnail s) (editPrompt s) (isOptimizing s) (isLoading s) (isEditing s)
    (generationHistory s) (selectedStyleReference s) (consistencyMode s) (batchCount s)
    (currentVariation s) (toasts s ++ [t]).

(** [result.error || 'An unexpected error occurred. Please try again.']. *)
Definition error_description (error : string) : string :=
  if truthy error then error else "An unexpected error occurred. Please try again.".

(** [Promise.all(files.map(fileToDataUri))]: every file read, or a
    rejection when one reader fails ([None]). *)
Fixpoint read_all (files : list (option string)) : option (list string) :=
  match files with
  | [] => Some []
  | None :: _ => None
  | Some dataUri :: rest =>
      match read_all rest with
      | Some dataUris => Some (dataUri :: dataUris)
      | None => None
      end
  end.

(** [handleImageChange]; [files] is [event.target.files], each file given
    by what reading it yields. *)
Definition handleImageChange (files : option (list (option string))) (s : State) : State :=
  match files with
  | None => s
  | Some files =>
      let remainingSlots := (MAX_IMAGES - Z.of_nat (List.length (uploadedImages s)))%Z in
      if (Z.of_nat (List.length files) >? remainingSlots)%Z
      then toast (mkToast "Too many images" "You can only upload up to 3 images in total.") s
      else
        match read_all files with
        | Some dataUris => setUploadedImages (uploadedImages s ++ dataUris) s
        | None =>
            toast (mkToast "Image Upload Failed"
                     "There was an error reading one of the files.") s
        end
  end.

(** [prev.filter((_, i) => i !== index)]. *)
Fixpoint remove_at {A} (index : nat) (l : list A) : list A :=
  match l, index with
  | [], _ => []
  | _ :: rest, O => rest
  | x :: rest, S index' => x :: remove_at index' rest
  end.

Definition handleRemoveImage (index : nat) (s : State) : State :=
  setUploadedImages (remove_at index (uploadedImages s)) s.

(** A handler that awaits a server action: the page state and the
    effects on the server side. *)
Definition Handler : Type := State -> Effects -> State * Effects.

Definition handleOptimizePrompt (ai : Provider) : Handler :=
  fun s fx =>
    if negb (truthy (prompt s))
    then (toast (mkToast "Missing Prompt" "Please provide a prompt to optimize.") s, fx)
    else
      let s1 := setGeneratedThumbnail None (setOptimizedPrompt "" (setIsOptimizing true s)) in
      let input :=
        OptimizePrompt.mkInput (prompt s) (aspectRatio s)
          (nth_error (uploadedImages s) 0)
          (nth_error (uploadedImages s) 1)
          (nth_error (uploadedImages s) 2) in
      match Actions.optimizePromptAction ai input fx with
      | (Normal (Actions.Success optimized), fx') =>
          (setIsOptimizing false (setOptimizedPrompt optimized s1), fx')
      | (Normal (Actions.Failure error), fx') =>
          (setIsOptimizing false
             (toast (mkToast "Optimization Failed" (error_description error)) s1), fx')
      | (Throw _, fx') => (s1, fx')
      end.

(** The sentence [handleGenerate] appends to the optimized prompt. *)
Definition enhancedPrompt (s : State) : string :=
  match consistencyMode s with
  | character =>
      if truthy (selectedStyleReference s)
      then optimizedPrompt s ++ " Maintain character consistency with the reference image provided. Keep the same facial features, clothing style, and character design throughout."
      else optimizedPrompt s
  | style =>
      if truthy (selectedStyleReference s)
      then optimizedPrompt s ++ " Apply the artistic style, color palette, lighting, and visual treatment from the reference image while creating new content."
      else optimizedPrompt s
  | none => optimizedPrompt s
  end.

Definition generate_input (s : State) : GenerateThumbnail.Input :=
  GenerateThumbnail.mkInput (enhancedPrompt s)
    (if truthy (selectedStyleReference s)
     then Some (selectedStyleReference s)
     else nth_error (uploadedImages s) 0)
    (nth_error (uploadedImages s) 1)
    (nth_error (uploadedImages s) 2)
    (aspectRatio s).

(** [handleGenerate]; [now] is what [Date.now()] answers. *)
Definition handleGenerate (ai : Provider) (now : Z) : Handler :=
  fun s fx =>
    if negb (truthy (optimizedPrompt s))
    then (toast (mkToast "Missing Optimized Prompt"
                   "Please optimize a prompt before generating.") s, fx)
    else
      let s1 := setGeneratedThumbnail None (setIsLoading true s) in
      match Actions.generateThumbnailAction ai (generate_input s) fx with
      | (Normal (Actions.Success thumbnail), fx') =>
          let s2 := setGeneratedThumbnail (Some thumbnail) s1 in
          let s3 :=
            setGenerationHistory
              (fun prev =>
                 (prev ++ [HistoryEntry.make (optimizedPrompt s) thumbnail now (aspectRatio s)])%list)
              s2 in
          (setIsLoading false s3, fx')
      | (Normal (Actions.Failure error), fx') =>
          (setIsLoading false
             (toast (mkToast "Generation Failed" (error_description error)) s1), fx')
      | (Throw _, fx') => (s1, fx')
      end.

Definition handleEdit (ai : Provider) : Handler :=
  fun s fx =>
    match truthy (editPrompt s), generatedThumbnail s with
    | true, Some base =>
        if truthy base
        then
          let s1 := setIsEditing true s in
          let input := EditThumbnail.mkInput base (editPrompt s) (aspectRatio s) in
          match Actions.editThumbnailAction ai input fx with
          | (Normal (Actions.Success thumbnail), fx') =>
              (setIsEditing false
                 (setEditPrompt "" (setGeneratedThumbnail (Some thumbnail) s1)), fx')
          | (Normal (Actions.Failure error), fx') =>
              (setIsEditing false
                 (toast (mkToast "Edit Failed" (error_description error)) s1), fx')
          | (Throw _, fx') => (s1, fx')
          end
        else (toast (mkToast "Missing Edit Prompt"
                       "Please describe the changes you want to make.") s, fx)
    | _, _ =>
        (toast (mkToast "Missing Edit Prompt"
                  "Please describe the changes you want to make.") s, fx)
    end.

(** [handleDownload] only touches the document. *)
Definition handleDownload (s : State) : State := s.

(** [generationHistory.slice(-6)], the entries the page shows. *)
Definition shown_history (s : State) : list HistoryEntry.t :=
  skipn (List.length (generationHistory s) - 6) (generationHistory s).

(** What the user can do on the page. *)
Inductive Event : Type :=
| ImageChange (files : option (list (option string)))
| RemoveImage (index : nat)
| ClickConsistencyMode (mode : ConsistencyMode)
| ChangePrompt (value : string)
| ChangeAspectRatio (value : AspectRatio)
| ClickOptimize
| ChangeOptimizedPrompt (value : string)
| ClickGenerate (now : Z)
| ChangeEditPrompt (value : string)
| ClickRefine
| ClickUseStyle
| ClickDownload
| ClickHistoryItem (position : nat).

(** The handler the page attaches to each of them.  The "Use Style" button
    and the history tiles exist only when there is a thumbnail, respectively
    a shown entry at that position. *)
Definition handle (ai : Provider) (e : Event) : Handler :=
  fun s fx =>
    match e with
    | ImageChange files => (handleImageChange files s, fx)
    | RemoveImage index => (handleRemoveImage index s, fx)
    | ClickConsistencyMode mode => (setConsistencyMode mode s, fx)
    | ChangePrompt value => (setPrompt value s, fx)
    | ChangeAspectRatio value => (setAspectRatio value s, fx)
    | ClickOptimize => handleOptimizePrompt ai s fx
    | ChangeOptimizedPrompt value => (setOptimizedPrompt value s, fx)
    | ClickGenerate now => handleGenerate ai now s fx
    | ChangeEditPrompt value => (setEditPrompt value s, fx)
    | ClickRefine => handleEdit ai s fx
    | ClickUseStyle =>
        match generatedThumbnail s with
        | Some thumbnail => (setSelectedStyleReference thumbnail s, fx)
        | None => (s, fx)
        end
    | ClickDownload => (handleDownload s, fx)
    | ClickHistoryItem position =>
        match nth_error (shown_history s) position with
        | Some item => (setSelectedStyleReference (HistoryEntry.image item) s, fx)
        | None => (s, fx)
        end
    end.

(** A session: the events in the order they happen. *)
Fixpoint run (ai : Provider) (events : list Event) (s : State) (fx : Effects)
  : State * Effects :=
  match events with
  | [] => (s, fx)
  | e :: rest => let '(s', fx') := handle ai e s fx in run ai rest s' fx'
  end.

End Page.

(* ================================================================= *)
(** ** page.tsx: what the page derives from its state *)

Module PageView.

(** [s.split(sep)] for a separator of one character: the pieces between
    the separators, of which there is always at least one. *)
Fixpoint split (sep : ascii) (s : string) : list string :=
  match s with
  | EmptyString => [EmptyString]
  | String c rest =>
      if Ascii.eqb c sep
      then EmptyString :: split sep rest
      else match split sep rest with
           | [] => [String c EmptyString]
           | piece :: pieces => String c piece :: pieces
           end
  end.

(** [generatedThumbnail.split(';')[0].split('/')[1] || 'png']. *)
Definition fileExtension (generatedThumbnail : string) : string :=
  match nth_error (split "/" (hd "" (split ";" generatedThumbnail))) 1 with
  | Some extension => if truthy extension then extension else "png"
  | None => "png"
  end.

(** What [handleDownload] puts on the link it clicks, [href] and
    [download]; nothing when there is no thumbnail.  [now] is what
    [Date.now()] answers. *)
Definition handleDownload_link (now : Z) (s : Page.State) : option (string * string) :=
  match Page.generatedThumbnail s with
  | None => None
  | Some thumbnail =>
      if negb (truthy thumbnail)
      then None
      else Some (thumbnail,
                 "thumbnail-" ++ Z_toString now ++ "." ++ fileExtension thumbnail)
  end.

(** [allDisabled]. *)
Definition allDisabled (s : Page.State) : bool :=
  Page.isLoading s || Page.isEditing s || Page.isOptimizing s.

End PageView.

(* ================================================================= *)
(** ** The array idioms of the sources, written out *)

(** [l.filter((x, i) => keep x i)]; [i] is the index of the head. *)
Fixpoint filter_indexed {A} (keep : A -> nat -> bool) (i : nat) (l : list A) : list A :=
  match l with
  | [] => []
  | x :: rest =>
      if keep x i
      then x :: filter_indexed keep (S i) rest
      else filter_indexed keep (S i) rest
  end.

(** [[image1, image2, image3].filter(Boolean).map(url => ({media: {url}}))]
    of the optimizer. *)
Definition filter_Boolean (l : list (option string)) : list string :=
  flat_map (fun v => match v with
                     | Some u => if truthy u then [u] else []
                     | None => []
                     end) l.

Definition imageParts_filter_map (image1 image2 image3 : option string) : list Part :=
  map MediaPart (filter_Boolean [image1; image2; image3]).

(** [if (image) mediaParts.push({media: {url: image}})] of the generator. *)
Definition push_if (image : option string) (mediaParts : list Part) : list Part :=
  match image with
  | Some u => if truthy u then mediaParts ++ [MediaPart u] else mediaParts
  | None => mediaParts
  end.

Definition mediaParts_pushes (image1 image2 image3 : option string) : list Part :=
  push_if image3 (push_if image2 (push_if image1 [])).

(* ================================================================= *)
(** ** The batch, item by item *)

(** What the call for item [i] of a batch contributes to [thumbnails],
    the batch starting after [before] provider calls: its entry when the
    call returns an image, nothing when it throws or returns none. *)
Definition batch_item (ai : Provider) (input : BatchGenerate.Input) (before i : nat)
  : list BatchGenerate.Thumbnail :=
  let p := nth i (BatchGenerate.prompts input) "" in
  match ai (before + i) (BatchGenerate.request input p) with
  | Normal response =>
      match media_url (media response) with
      | Some u => if truthy u then [BatchGenerate.mkThumbnail u p i] else []
      | None => []
      end
  | Throw _ => []
  end.

(** What it contributes to the console: a line when the call throws. *)
Definition batch_item_log (ai : Provider) (input : BatchGenerate.Input) (before i : nat)
  : list string :=
  let p := nth i (BatchGenerate.prompts input) "" in
  match ai (before + i) (BatchGenerate.request input p) with
  | Normal _ => []
  | Throw _ => ["Batch generation failed for prompt " ++ nat_toString i ++ ":"]
  end.

(** The character [c] occurs in [s]. *)
Fixpoint has_char (c : ascii) (s : string) : bool :=
  match s with
  | EmptyString => false
  | String x rest => Ascii.eqb x c || has_char c rest
  end.

(** The indices of a list of entries increase strictly. *)
Fixpoint ascending (indices : list nat) : bool :=
  match indices with
  | [] => true
  | i :: rest =>
      match rest with
      | [] => true
      | j :: _ => (i <? j)%nat && ascending rest
      end
  end.

(* ================================================================= *)
(** ** Phrases the properties below look for *)

(** The instruction of the vertical branch of the three system
    instructions. *)
Definition no_crop_phrase : string :=
  "Do NOT crop or cut any text or subjects; instead, scale and reposition elements".

(** The instruction of the other branch. *)
Definition crop_to_fit_phrase : string :=
  "Crop the image to fit the requested aspect ratio if necessary.".

(** The text model gave nothing to use: the call threw, or both
    [response.text] and [response.output?.text] are falsy. *)
Definition no_usable_text (answer : Completion GenerateResponse) : bool :=
  match answer with
  | Throw _ => true
  | Normal response => negb (truthy_opt (js_or (text response) (output_text response)))
  end.

(** The call completed and its response carries no image: [media] is
    missing or its [url] is falsy. *)
Definition no_image_payload (answer : Completion GenerateResponse) : bool :=
  match answer with
  | Throw _ => false
  | Normal response => negb (truthy_opt (media_url (media response)))
  end.

(** The batch input with another consistency mode. *)
Definition with_consistencyMode (m : BatchGenerate.ConsistencyMode)
    (input : BatchGenerate.Input) : BatchGenerate.Input :=
  BatchGenerate.mkInput (BatchGenerate.prompts input) (BatchGenerate.basePrompt input)
    (BatchGenerate.aspectRatio input) (BatchGenerate.styleReference input)
    (BatchGenerate.characterReference input) m.

(** The mode is 'character' or 'style' and the reference image it calls
    for is missing (undefined, or the empty string). *)
Definition reference_missing (input : BatchGenerate.Input) : bool :=
  match BatchGenerate.consistencyMode input with
  | BatchGenerate.character => negb (truthy_opt (BatchGenerate.characterReference input))
  | BatchGenerate.style => negb (truthy_opt (BatchGenerate.styleReference input))
  | _ => false
  end.

(** The entry the batch records for item [i] when its call returns the
    image [imgs i]. *)
Definition batch_entry (input : BatchGenerate.Input) (imgs : nat -> string) (i : nat)
  : BatchGenerate.Thumbnail :=
  BatchGenerate.mkThumbnail (imgs i) (nth i (BatchGenerate.prompts input) "") i.

(** The indices [start], ..., [start + count - 1] without [k], ascending. *)
Definition all_but (k start count : nat) : list nat :=
  filter (fun i => negb (i =? k)%nat) (seq start count).

(** The index is undefined or a safe integer, the range in which [d + 1]
    is exact and is printed as its decimal numeral. *)
Definition dominantImage_is_index (input : IntelligentFusion.Input) : bool :=
  match IntelligentFusion.dominantImage input with
  | None => true
  | Some d => (Z.abs d <? 2 ^ 53)%Z
  end.

(** The fusion input with another [dominantImage]. *)
Definition with_dominantImage (d : option Z)
    (input : IntelligentFusion.Input) : IntelligentFusion.Input :=
  IntelligentFusion.mkInput (IntelligentFusion.images input)
    (IntelligentFusion.fusionPrompt input) (IntelligentFusion.aspectRatio input)
    (IntelligentFusion.fusionStyle input) d (IntelligentFusion.creativityLevel input).

(* ================================================================= *)
(** ** Sample sessions *)

(** A provider that is out of quota. *)
Definition failing_provider : Provider :=
  fun _ _ => Throw (mkError "quota exceeded").

(** A provider that completes every call with neither text nor image. *)
Definition empty_provider : Provider :=
  fun _ _ => Normal (mkResponse None None None).

Definition sample_optimize_input : OptimizePrompt.Input :=
  OptimizePrompt.mkInput "red car on a beach" R1_1 None None None.

Definition sample_generate_input : GenerateThumbnail.Input :=
  GenerateThumbnail.mkInput "red car on a beach" None None None R1_1.

Definition sample_edit_input : EditThumbnail.Input :=
  EditThumbnail.mkInput "data:image/png;base64,AAAA" "make the car blue" R16_9.

Definition sample_fusion_input : IntelligentFusion.Input :=
  IntelligentFusion.mkInput ["data:image/png;base64,AAAA"] "merge them" R16_9
    IntelligentFusion.seamless None IntelligentFusion.balanced.

(** Three prompts; the provider fails on the second call of the session
    and returns an image on every other one. *)
Definition sample_batch_input : BatchGenerate.Input :=
  BatchGenerate.mkInput ["intro"; "review"; "outro"] "Tech channel." R16_9
    None None BatchGenerate.theme.

Definition sample_image (i : nat) : string :=
  "data:image/png;base64,IMG" ++ nat_toString i.

Definition second_call_fails : Provider :=
  fun n _ =>
    if (n =? 1)%nat
    then Throw (mkError "503 overloaded")
    else Normal (mkResponse None None (Some (mkMedia (sample_image n)))).

Definition empty_batch_input : BatchGenerate.Input :=
  BatchGenerate.mkInput [] "Tech channel." R16_9 None None BatchGenerate.none.

(** Mode 'character' with no character reference. *)
Definition character_without_reference : BatchGenerate.Input :=
  BatchGenerate.mkInput ["intro"] "Tech channel." R16_9 None None BatchGenerate.character.

(** Two images and a dominant index that points at none of them. *)
Definition fusion_with_stray_index : IntelligentFusion.Input :=
  IntelligentFusion.mkInput
    ["data:image/png;base64,AAAA"; "data:image/png;base64,BBBB"]
    "merge them" R1_1 IntelligentFusion.blend (Some 7%Z) IntelligentFusion.creative.

(** A provider that answers every call with a text and an image. *)
Definition helpful_provider : Provider :=
  fun n _ =>
    Normal (mkResponse (Some "two portraits, warm light") None
              (Some (mkMedia (sample_image n)))).

(** The page once a prompt has been optimized. *)
Definition page_ready : Page.State :=
  Page.setOptimizedPrompt "A red car on a beach, 1:1." Page.initial.

(** A provider that answers every call with a text and no image. *)
Definition text_provider : Provider :=
  fun _ _ => Normal (mkResponse (Some "A red sports car on a sunlit beach.") None None).

(** A provider that leaves [text] empty and answers in [output.text]. *)
Definition output_provider : Provider :=
  fun _ _ => Normal (mkResponse (Some "") (Some "A red sports car, from output.") None).

(** Two images and no dominant one. *)
Definition sample_pair_input : IntelligentFusion.Input :=
  IntelligentFusion.mkInput
    ["data:image/png;base64,AAAA"; "data:image/png;base64,BBBB"]
    "merge them" R1_1 IntelligentFusion.collage None IntelligentFusion.balanced.

(** The page showing a generated PNG. *)
Definition page_with_thumbnail : Page.State :=
  Page.setGeneratedThumbnail (Some "data:image/png;base64,AAAA") page_ready.

(** The page showing a generated JPEG. *)
Definition page_with_jpeg : Page.State :=
  Page.setGeneratedThumbnail (Some "data:image/jpeg;base64,BBBB") page_ready.

(** The page with two uploads. *)
Definition page_with_uploads : Page.State :=
  Page.setUploadedImages ["data:image/png;base64,AAAA"; "data:image/jpeg;base64,BBBB"]
    Page.initial.

(** The page showing a thumbnail, with an edit typed in. *)
Definition page_editing : Page.State :=
  Page.setEditPrompt "make the car blue" page_with_thumbnail.

(** The page with a prompt typed in and nothing optimized yet. *)
Definition page_with_prompt : Page.State :=
  Page.setPrompt "red car on a beach" Page.initial.

(** A short session: a prompt is typed, optimized, generated and refined. *)
Definition sample_session : list Page.Event :=
  [Page.ChangePrompt "red car on a beach"; Page.ClickOptimize;
   Page.ClickGenerate 1700000000000; Page.ChangeEditPrompt "make the car blue";
   Page.ClickRefine].

(* ================================================================= *)
(** * Properties *)

(** Closes a goal that asks for the entries added to a list when there are
    none. *)
Ltac history_same :=
  exists []; rewrite app_nil_r; split; [reflexivity | cbn; lia].

(** ** Strings *)

Lemma append_assoc (a b c : string) : (a ++ b) ++ c = a ++ b ++ c.
Proof.
  induction a as [|x a IH]; simpl; [reflexivity | now rewrite IH].
Qed.

Example includes_finds_a_word : includes "car" "red car on a beach" = true.
Proof. reflexivity. Qed.

Example includes_misses_a_word : includes "boat" "red car on a beach" = false.
Proof. reflexivity. Qed.

Example trim_strips_both_ends :
  trim ("  a b." ++ nl ++ " ") = "a b.".
Proof. reflexivity. Qed.

Example two_thirds :
  Number_div (Number_of_nat 2) (Number_of_nat 3)
  = S754_finite false 6004799503160661 (-53).
Proof. reflexivity. Qed.

Lemma prefix_refl_app (n s : string) : prefix n (n ++ s) = true.
Proof.
  induction n as [|x n IH]; simpl.
  - now destruct s.
  - destruct (ascii_dec x x) as [_|Hne]; [exact IH | now elim Hne].
Qed.

Lemma prefix_app_cancel (a n h : string) :
  prefix n h = true -> prefix (a ++ n) (a ++ h) = true.
Proof.
  intros H. induction a as [|x a IH]; simpl; [exact H|].
  destruct (ascii_dec x x) as [_|Hne]; [exact IH | now elim Hne].
Qed.

Lemma includes_prefix (n h : string) : prefix n h = true -> includes n h = true.
Proof.
  intros H. destruct h; cbn [includes]; rewrite H; reflexivity.
Qed.

Lemma includes_cons (n : string) (c : ascii) (h : string) :
  includes n h = true -> includes n (String c h) = true.
Proof.
  intros H. cbn [includes]. rewrite H. apply orb_true_r.
Qed.

Lemma includes_skip (n p h : string) :
  includes n h = true -> includes n (p ++ h) = true.
Proof.
  intros H. induction p as [|c p IH]; simpl append; [exact H|].
  now apply includes_cons.
Qed.

(** A needle that occurs between two pieces is found. *)
Lemma includes_between (n before after : string) :
  includes n (before ++ n ++ after) = true.
Proof.
  apply includes_skip, includes_prefix, prefix_refl_app.
Qed.

Lemma trimEnd_app (s t : string) :
  trimEnd t <> "" -> trimEnd (s ++ t) = s ++ trimEnd t.
Proof.
  intros Ht. induction s as [|c s IH]; simpl; [reflexivity|].
  rewrite IH. destruct (s ++ trimEnd t) eqn:E; [|reflexivity].
  destruct s; simpl in E; [now elim Ht | discriminate].
Qed.

(** ** The monad *)

Lemma defineFlow_accepts {I O} (schema : I -> bool) (fn : I -> Async O) (input : I) :
  schema input = true -> defineFlow schema fn input = fn input.
Proof.
  intros H. unfold defineFlow. now rewrite H.
Qed.

Lemma defineFlow_rejects {I O} (schema : I -> bool) (fn : I -> Async O) (input : I)
    (fx : Effects) :
  schema input = false -> defineFlow schema fn input fx = (Throw schema_error, fx).
Proof.
  intros H. unfold defineFlow. now rewrite H.
Qed.

(** ** The fallback of the optimizer *)

Lemma trimEnd_template (a r b p tail kept : string) :
  trimEnd tail = kept -> kept <> "" ->
  trimEnd (a ++ r ++ b ++ p ++ tail) = a ++ r ++ b ++ p ++ kept.
Proof.
  intros Hk Hne.
  rewrite <- (append_assoc b p tail), <- (append_assoc r (b ++ p) tail),
          <- (append_assoc a (r ++ b ++ p) tail).
  rewrite trimEnd_app by (rewrite Hk; exact Hne).
  rewrite Hk. now rewrite !append_assoc.
Qed.

(** The fallback template with [trim] carried out: the text ends after the
    period that follows the user's prompt, or after the sentence about the
    reference images. *)
Lemma fallback_trimmed (input : OptimizePrompt.Input) :
  OptimizePrompt.fallback input =
  "Create an eye-catching thumbnail. Aspect ratio: "
  ++ ratio_string (OptimizePrompt.aspectRatio input)
  ++ ". Crop to fit with no padding or black bars. Emphasize strong composition (rule of thirds, leading lines), clear subject separation, and dramatic lighting. Reflect the following intent: "
  ++ OptimizePrompt.prompt input
  ++ (match OptimizePrompt.providedImagesCount input with
      | O => "."
      | _ => ". Incorporate the provided reference images appropriately."
      end).
Proof.
  unfold OptimizePrompt.fallback, trim.
  match goal with |- trimEnd (trimStart ?s) = _ => change (trimStart s) with s end.
  apply trimEnd_template; destruct (OptimizePrompt.providedImagesCount input);
    first [reflexivity | discriminate].
Qed.

Lemma fallback_includes_prompt (input : OptimizePrompt.Input) :
  includes (OptimizePrompt.prompt input) (OptimizePrompt.fallback input) = true.
Proof.
  rewrite fallback_trimmed.
  rewrite <- append_assoc, <- append_assoc.
  apply includes_between.
Qed.

Lemma fallback_includes_ratio (input : OptimizePrompt.Input) :
  includes (ratio_string (OptimizePrompt.aspectRatio input))
           (OptimizePrompt.fallback input) = true.
Proof.
  rewrite fallback_trimmed. apply includes_between.
Qed.

(** C2.  Whenever the text model throws or returns no usable text, the
    prompt optimizer still completes normally: the flow returns, and the
    action reports success with, exactly the local fallback template, and
    that text contains the user's prompt and the selected aspect ratio. *)
Theorem optimizer_falls_back
    (ai : Provider) (input : OptimizePrompt.Input) (fx : Effects) :
  no_usable_text (ai (List.length (calls fx)) (OptimizePrompt.request input)) = true ->
  fst (OptimizePrompt.optimizePrompt ai input fx)
    = Normal (OptimizePrompt.mkOutput (OptimizePrompt.fallback input))
  /\ fst (Actions.optimizePromptAction ai input fx)
    = Normal (Actions.Success (OptimizePrompt.fallback input))
  /\ includes (OptimizePrompt.prompt input) (OptimizePrompt.fallback input) = true
  /\ includes (ratio_string (OptimizePrompt.aspectRatio input))
              (OptimizePrompt.fallback input) = true.
Proof.
  intros Hbad.
  assert (Hflow : fst (OptimizePrompt.optimizePrompt ai input fx)
                  = Normal (OptimizePrompt.mkOutput (OptimizePrompt.fallback input))).
  { unfold OptimizePrompt.optimizePrompt, OptimizePrompt.optimizePromptFlow,
      defineFlow, OptimizePrompt.InputSchema, OptimizePrompt.fn,
      bind, try_catch, ai_generate, console_error, ret.
    cbn beta iota.
    destruct (ai (List.length (calls fx)) (OptimizePrompt.request input))
      as [response|e]; cbn in Hbad |- *; [|reflexivity].
    destruct (js_or (text response) (output_text response)) as [final|]; [|reflexivity].
    cbn in Hbad. destruct (truthy final); [discriminate | reflexivity]. }
  split; [exact Hflow|]. split.
  - unfold Actions.optimizePromptAction, try_catch, bind, ret.
    destruct (OptimizePrompt.optimizePrompt ai input fx) as [[out|e] fx'];
      cbn in Hflow |- *; [|discriminate].
    now inversion Hflow.
  - split; [apply fallback_includes_prompt | apply fallback_includes_ratio].
Qed.

Lemma optimizer_falls_back_witness :
  no_usable_text
    (failing_provider (List.length (calls no_effects))
       (OptimizePrompt.request sample_optimize_input)) = true
  /\ fst (Actions.optimizePromptAction failing_provider sample_optimize_input no_effects)
     = Normal (Actions.Success (OptimizePrompt.fallback sample_optimize_input)).
Proof.
  split; [reflexivity|].
  apply (optimizer_falls_back failing_provider sample_optimize_input no_effects).
  reflexivity.
Defined.

(** ** Responses without an image *)

Lemma generate_flow_no_image
    (ai : Provider) (input : GenerateThumbnail.Input) (fx : Effects) :
  no_image_payload (ai (List.length (calls fx)) (GenerateThumbnail.request input)) = true ->
  fst (GenerateThumbnail.generateThumbnailFromPrompt ai input fx)
    = Throw GenerateThumbnail.no_image.
Proof.
  intros Hno.
  unfold GenerateThumbnail.generateThumbnailFromPrompt,
    GenerateThumbnail.generateThumbnailFromPromptFlow, defineFlow,
    GenerateThumbnail.InputSchema, GenerateThumbnail.fn, bind, ai_generate.
  cbn beta iota.
  destruct (ai (List.length (calls fx)) (GenerateThumbnail.request input))
    as [response|e]; cbn in Hno |- *; [|discriminate].
  destruct (media response) as [[u]|]; cbn in Hno |- *; [|reflexivity].
  destruct (truthy u); [discriminate | reflexivity].
Qed.

Lemma edit_flow_no_image
    (ai : Provider) (input : EditThumbnail.Input) (fx : Effects) :
  no_image_payload (ai (List.length (calls fx)) (EditThumbnail.request input)) = true ->
  fst (EditThumbnail.iterativelyEditThumbnail ai input fx)
    = Throw EditThumbnail.no_image.
Proof.
  intros Hno.
  unfold EditThumbnail.iterativelyEditThumbnail,
    EditThumbnail.iterativelyEditThumbnailFlow, defineFlow,
    EditThumbnail.InputSchema, EditThumbnail.fn, bind, ai_generate.
  cbn beta iota.
  destruct (ai (List.length (calls fx)) (EditThumbnail.request input))
    as [response|e]; cbn in Hno |- *; [|discriminate].
  destruct (media response) as [[u]|]; cbn in Hno |- *; [|reflexivity].
  destruct (truthy u); [discriminate | reflexivity].
Qed.

(** C3.  When the provider call completes without an image payload, the
    thumbnail generator and the iterative editor both throw their explicit
    error, and the actions wrapping them return a failure carrying that
    message, never a success. *)
Theorem no_image_is_an_error (ai : Provider) (fx : Effects) :
  (forall input : GenerateThumbnail.Input,
      no_image_payload
        (ai (List.length (calls fx)) (GenerateThumbnail.request input)) = true ->
      fst (GenerateThumbnail.generateThumbnailFromPrompt ai input fx)
        = Throw (mkError "Image generation did not return an image.")
      /\ fst (Actions.generateThumbnailAction ai input fx)
        = Normal (Actions.Failure "Image generation did not return an image."))
  /\ (forall input : EditThumbnail.Input,
      no_image_payload
        (ai (List.length (calls fx)) (EditThumbnail.request input)) = true ->
      fst (EditThumbnail.iterativelyEditThumbnail ai input fx)
        = Throw (mkError "Failed to generate or edit thumbnail.")
      /\ fst (Actions.editThumbnailAction ai input fx)
        = Normal (Actions.Failure "Failed to generate or edit thumbnail.")).
Proof.
  split; intros input Hno.
  - pose proof (generate_flow_no_image ai input fx Hno) as Hflow.
    split; [exact Hflow|].
    unfold Actions.generateThumbnailAction, try_catch, bind, ret, console_error.
    destruct (GenerateThumbnail.generateThumbnailFromPrompt ai input fx)
      as [[out|e] fx']; cbn in Hflow |- *; [discriminate|].
    now inversion Hflow.
  - pose proof (edit_flow_no_image ai input fx Hno) as Hflow.
    split; [exact Hflow|].
    unfold Actions.editThumbnailAction, try_catch, bind, ret, console_error.
    destruct (EditThumbnail.iterativelyEditThumbnail ai input fx)
      as [[out|e] fx']; cbn in Hflow |- *; [discriminate|].
    now inversion Hflow.
Qed.

Lemma no_image_is_an_error_witness :
  (no_image_payload
     (empty_provider (List.length (calls no_effects))
        (GenerateThumbnail.request sample_generate_input)) = true
   /\ fst (Actions.generateThumbnailAction empty_provider sample_generate_input no_effects)
      = Normal (Actions.Failure "Image generation did not return an image."))
  /\ (no_image_payload
       (empty_provider (List.length (calls no_effects))
          (EditThumbnail.request sample_edit_input)) = true
     /\ fst (Actions.editThumbnailAction empty_provider sample_edit_input no_effects)
        = Normal (Actions.Failure "Failed to generate or edit thumbnail.")).
Proof.
  split; (split; [reflexivity|]).
  - apply (proj1 (no_image_is_an_error empty_provider no_effects) sample_generate_input).
    reflexivity.
  - apply (proj2 (no_image_is_an_error empty_provider no_effects) sample_edit_input).
    reflexivity.
Defined.

(** ** System instructions *)

(** C4.  For each of the three aspect ratios, the system instruction of the
    prompt optimizer, of the thumbnail generator and of the iterative editor
    contains the ratio string; each of them is determined by the aspect
    ratio of the input alone; the 9:16 text carries the no-crop, reposition
    instruction and not the crop-to-fit one, and the text of the other
    ratios carries the crop-to-fit instruction and not the no-crop one. *)
Theorem system_instruction_names_ratio (r : AspectRatio) :
  (includes (ratio_string r) (OptimizePrompt.system_instruction r) = true
   /\ includes (ratio_string r) (GenerateThumbnail.system_instruction r) = true
   /\ includes (ratio_string r) (EditThumbnail.system_instruction r) = true)
  /\ (includes no_crop_phrase (OptimizePrompt.system_instruction r) = is_9_16 r
     /\ includes no_crop_phrase (GenerateThumbnail.system_instruction r) = is_9_16 r
     /\ includes no_crop_phrase (EditThumbnail.system_instruction r) = is_9_16 r)
  /\ (includes crop_to_fit_phrase (OptimizePrompt.system_instruction r) = negb (is_9_16 r)
     /\ includes crop_to_fit_phrase (GenerateThumbnail.system_instruction r) = negb (is_9_16 r)
     /\ includes crop_to_fit_phrase (EditThumbnail.system_instruction r) = negb (is_9_16 r))
  /\ (forall input, OptimizePrompt.aspectRatio input = r ->
        system (OptimizePrompt.request input) = OptimizePrompt.system_instruction r)
  /\ (forall input, GenerateThumbnail.aspectRatio input = r ->
        system (GenerateThumbnail.request input) = GenerateThumbnail.system_instruction r)
  /\ (forall input, EditThumbnail.aspectRatio input = r ->
        system (EditThumbnail.request input) = EditThumbnail.system_instruction r).
Proof.
  repeat split; try (destruct r; vm_compute; reflexivity);
    intros input <-; reflexivity.
Qed.

Lemma system_instruction_names_ratio_witness :
  OptimizePrompt.aspectRatio sample_optimize_input = R1_1
  /\ includes "1:1" (system (OptimizePrompt.request sample_optimize_input)) = true.
Proof.
  split; [reflexivity|].
  destruct (system_instruction_names_ratio R1_1) as [[Hin _] [_ [_ [Hreq _]]]].
  rewrite (Hreq sample_optimize_input eq_refl). exact Hin.
Defined.

(** ** Validation of the fusion input *)

(** C5.  An intelligent-fusion input with fewer than 2 or more than 4
    images is refused by the input schema: the flow throws before its body
    runs, so the list of provider requests is what it was, and the action
    returns a failure, again without any request. *)
Theorem fusion_rejects_bad_image_count
    (ai : Provider) (input : IntelligentFusion.Input) (fx : Effects) :
  List.length (IntelligentFusion.images input) < 2
  \/ 4 < List.length (IntelligentFusion.images input) ->
  IntelligentFusion.InputSchema input = false
  /\ IntelligentFusion.intelligentFusion ai input fx = (Throw schema_error, fx)
  /\ fst (Actions.intelligentFusionAction ai input fx)
     = Normal (Actions.Failure (message schema_error))
  /\ calls (snd (Actions.intelligentFusionAction ai input fx)) = calls fx.
Proof.
  intros Hcount.
  assert (Hschema : IntelligentFusion.InputSchema input = false).
  { unfold IntelligentFusion.InputSchema.
    destruct Hcount as [Hfew|Hmany].
    - apply andb_false_intro1. apply Nat.leb_gt. exact Hfew.
    - apply andb_false_intro2. apply Nat.leb_gt. exact Hmany. }
  assert (Hflow : IntelligentFusion.intelligentFusion ai input fx
                  = (Throw schema_error, fx)).
  { unfold IntelligentFusion.intelligentFusion, IntelligentFusion.intelligentFusionFlow.
    now apply defineFlow_rejects. }
  repeat split; try assumption;
    unfold Actions.intelligentFusionAction, try_catch, bind;
    rewrite Hflow; reflexivity.
Qed.

Lemma fusion_rejects_bad_image_count_witness :
  (List.length (IntelligentFusion.images sample_fusion_input) < 2
   \/ 4 < List.length (IntelligentFusion.images sample_fusion_input))
  /\ IntelligentFusion.intelligentFusion failing_provider sample_fusion_input no_effects
     = (Throw schema_error, no_effects).
Proof.
  assert (H : List.length (IntelligentFusion.images sample_fusion_input) < 2
              \/ 4 < List.length (IntelligentFusion.images sample_fusion_input)).
  { left. cbn. lia. }
  split; [exact H|].
  apply (fusion_rejects_bad_image_count failing_provider sample_fusion_input no_effects H).
Defined.

(** ** The actions *)

(** What a handler of [actions.ts] makes of the completion of the flow it
    wraps. *)
Lemma action_shape {I O P} (flow : I -> Async O) (payload : O -> P) (label : string)
    (input : I) (fx : Effects) :
  let wrapped :=
    try_catch
      (result <- flow input ;; ret (Actions.Success (payload result)))
      (fun error => console_error label ;;; ret (Actions.Failure (message error))) in
  match flow input fx with
  | (Normal result, fx') =>
      wrapped fx = (Normal (Actions.Success (payload result)), fx')
  | (Throw error, fx') =>
      fst (wrapped fx) = Normal (Actions.Failure (message error))
      /\ calls (snd (wrapped fx)) = calls fx'
  end.
Proof.
  unfold try_catch, bind, ret, console_error. cbn.
  destruct (flow input fx) as [[result|error] fx']; cbn; auto.
Qed.

(** C6.  Each of the five handlers completes normally whatever its flow
    does: when the flow returns, the handler returns a success carrying the
    flow's result; when the flow throws, it returns a failure whose error
    is the message of what was thrown. *)
Theorem actions_report_success_or_error (ai : Provider) (fx : Effects) :
  (forall input,
      match OptimizePrompt.optimizePrompt ai input fx with
      | (Normal result, fx') =>
          Actions.optimizePromptAction ai input fx
          = (Normal (Actions.Success (OptimizePrompt.optimizedPrompt result)), fx')
      | (Throw error, fx') =>
          fst (Actions.optimizePromptAction ai input fx)
          = Normal (Actions.Failure (message error))
          /\ calls (snd (Actions.optimizePromptAction ai input fx)) = calls fx'
      end)
  /\ (forall input,
      match GenerateThumbnail.generateThumbnailFromPrompt ai input fx with
      | (Normal result, fx') =>
          Actions.generateThumbnailAction ai input fx
          = (Normal (Actions.Success (GenerateThumbnail.thumbnail result)), fx')
      | (Throw error, fx') =>
          fst (Actions.generateThumbnailAction ai input fx)
          = Normal (Actions.Failure (message error))
          /\ calls (snd (Actions.generateThumbnailAction ai input fx)) = calls fx'
      end)
  /\ (forall input,
      match EditThumbnail.iterativelyEditThumbnail ai input fx with
      | (Normal result, fx') =>
          Actions.editThumbnailAction ai input fx
          = (Normal (Actions.Success (EditThumbnail.editedThumbnail result)), fx')
      | (Throw error, fx') =>
          fst (Actions.editThumbnailAction ai input fx)
          = Normal (Actions.Failure (message error))
          /\ calls (snd (Actions.editThumbnailAction ai input fx)) = calls fx'
      end)
  /\ (forall input,
      match BatchGenerate.batchGenerateThumbnails ai input fx with
      | (Normal result, fx') =>
          Actions.batchGenerateAction ai input fx
          = (Normal (Actions.Success result), fx')
      | (Throw error, fx') =>
          fst (Actions.batchGenerateAction ai input fx)
          = Normal (Actions.Failure (message error))
          /\ calls (snd (Actions.batchGenerateAction ai input fx)) = calls fx'
      end)
  /\ (forall input,
      match IntelligentFusion.intelligentFusion ai input fx with
      | (Normal result, fx') =>
          Actions.intelligentFusionAction ai input fx
          = (Normal (Actions.Success result), fx')
      | (Throw error, fx') =>
          fst (Actions.intelligentFusionAction ai input fx)
          = Normal (Actions.Failure (message error))
          /\ calls (snd (Actions.intelligentFusionAction ai input fx)) = calls fx'
      end).
Proof.
  repeat split; intros input.
  - exact (action_shape (OptimizePrompt.optimizePrompt ai)
             OptimizePrompt.optimizedPrompt "Error optimizing prompt:" input fx).
  - exact (action_shape (GenerateThumbnail.generateThumbnailFromPrompt ai)
             GenerateThumbnail.thumbnail "Error generating thumbnail:" input fx).
  - exact (action_shape (EditThumbnail.iterativelyEditThumbnail ai)
             EditThumbnail.editedThumbnail "Error editing thumbnail:" input fx).
  - exact (action_shape (BatchGenerate.batchGenerateThumbnails ai)
             (fun result => result) "Error in batch generation:" input fx).
  - exact (action_shape (IntelligentFusion.intelligentFusion ai)
             (fun result => result) "Error in intelligent fusion:" input fx).
Qed.

(** ** The batch loop *)

Section BatchLoop.

Variable ai : Provider.
Variable input : BatchGenerate.Input.
(** The number of provider calls made before the batch starts. *)
Variable before : nat.
(** The item whose call throws, and the images the other calls return. *)
Variable k : nat.
Variable imgs : nat -> string.

Hypothesis item_ok :
  forall i, i < List.length (BatchGenerate.prompts input) -> i <> k ->
    exists response,
      ai (before + i) (BatchGenerate.request input (nth i (BatchGenerate.prompts input) "")) = Normal response
      /\ media_url (media response) = Some (imgs i)
      /\ truthy (imgs i) = true.

Hypothesis item_fails :
  exists e, ai (before + k) (BatchGenerate.request input (nth k (BatchGenerate.prompts input) "")) = Throw e.

(** One turn of the loop makes one call; it appends the entry of item [i],
    unless [i] is the failing item, which leaves the array as it is. *)
Lemma iteration_step (i : nat) (acc : list BatchGenerate.Thumbnail) (fx : Effects) :
  i < List.length (BatchGenerate.prompts input) ->
  List.length (calls fx) = before + i ->
  exists fx',
    BatchGenerate.iteration ai input i acc fx
    = (Normal (acc ++ map (batch_entry input imgs) (all_but k i 1))%list, fx')
    /\ List.length (calls fx') = before + S i.
Proof.
  intros Hi Hlen.
  unfold BatchGenerate.iteration, try_catch, bind, ai_generate, console_error, ret.
  cbn beta iota zeta. rewrite Hlen.
  unfold all_but. cbn [seq filter].
  destruct (Nat.eqb_spec i k) as [->|Hne]; cbn [negb map].
  - destruct item_fails as [e ->]. cbn.
    eexists. split; [now rewrite app_nil_r|].
    cbn. rewrite length_app, Hlen. cbn. lia.
  - destruct (item_ok Hi Hne) as [response [-> [Hurl Htruthy]]]. cbn.
    rewrite Hurl, Htruthy.
    eexists. split; [reflexivity|].
    cbn. rewrite length_app, Hlen. cbn. lia.
Qed.

Lemma all_but_cons (start count : nat) :
  all_but k start (S count) = (all_but k start 1 ++ all_but k (S start) count)%list.
Proof.
  unfold all_but. cbn [seq filter]. now destruct (negb (start =? k)%nat).
Qed.

(** The loop from [start] on: every item but the failing one is appended,
    in the order of the indices. *)
Lemma loop_collects (count start : nat) (acc : list BatchGenerate.Thumbnail) (fx : Effects) :
  start + count <= List.length (BatchGenerate.prompts input) ->
  List.length (calls fx) = before + start ->
  exists fx',
    for_loop count start (BatchGenerate.iteration ai input) acc fx
    = (Normal (acc ++ map (batch_entry input imgs) (all_but k start count))%list, fx')
    /\ List.length (calls fx') = before + start + count.
Proof.
  revert start acc fx.
  induction count as [|count IH]; intros start acc fx Hbound Hlen.
  - exists fx. cbn. rewrite app_nil_r. split; [reflexivity | lia].
  - cbn [for_loop]. unfold bind at 1.
    destruct (@iteration_step start acc fx) as [fx1 [Hstep Hlen1]]; [lia | exact Hlen |].
    rewrite Hstep.
    destruct (IH (S start) (acc ++ map (batch_entry input imgs) (all_but k start 1))%list fx1)
      as [fx2 [Hrest Hlen2]]; [lia | lia |].
    exists fx2. rewrite Hrest. split; [|lia].
    now rewrite (all_but_cons start count), map_app, app_assoc.
Qed.

End BatchLoop.

(** All indices below [n] except [k], when [k] is one of them, are [n - 1]
    indices. *)
Lemma length_all_but_one (k start count : nat) :
  start <= k < start + count ->
  List.length (filter (fun i => negb (i =? k)%nat) (seq start count)) = count - 1.
Proof.
  revert start. induction count as [|count IH]; intros start Hk; [lia|].
  cbn [seq filter].
  destruct (Nat.eqb_spec start k) as [->|Hne]; cbn [negb].
  - assert (Hnone : forall m s, k < s ->
              filter (fun i => negb (i =? k)%nat) (seq s m) = seq s m).
    { induction m as [|m IHm]; intros s Hs; [reflexivity|].
      cbn [seq filter]. destruct (Nat.eqb_spec s k); [lia|].
      cbn [negb]. f_equal. apply IHm. lia. }
    rewrite Hnone by lia. rewrite length_seq. lia.
  - cbn [List.length]. rewrite IH by lia. lia.
Qed.

(** C1.  A batch of N prompts in which the call for item [k] throws and
    every other call returns an image payload [imgs i]: the flow returns
    the entries [{image: imgs i, prompt: prompts[i], index: i}] for the
    indices [i <> k] in ascending order, which are N - 1 entries, and the
    consistency score is the quotient of N - 1 by N. *)
Theorem batch_skips_the_failed_item
    (ai : Provider) (input : BatchGenerate.Input) (fx : Effects)
    (k : nat) (imgs : nat -> string) :
  k < List.length (BatchGenerate.prompts input) ->
  (exists e,
      ai (List.length (calls fx) + k)
         (BatchGenerate.request input (nth k (BatchGenerate.prompts input) ""))
      = Throw e) ->
  (forall i, i < List.length (BatchGenerate.prompts input) -> i <> k ->
     exists response,
       ai (List.length (calls fx) + i)
          (BatchGenerate.request input (nth i (BatchGenerate.prompts input) ""))
       = Normal response
       /\ media_url (media response) = Some (imgs i)
       /\ truthy (imgs i) = true) ->
  let N := List.length (BatchGenerate.prompts input) in
  let expected := map (batch_entry input imgs) (all_but k 0 N) in
  fst (BatchGenerate.batchGenerateThumbnails ai input fx)
    = Normal (BatchGenerate.mkOutput expected
                (Number_div (Number_of_nat (N - 1)) (Number_of_nat N)))
  /\ List.length expected = N - 1
  /\ map BatchGenerate.index expected = filter (fun i => negb (i =? k)%nat) (seq 0 N)
  /\ (forall entry, In entry expected ->
        BatchGenerate.prompt entry
        = nth (BatchGenerate.index entry) (BatchGenerate.prompts input) ""
        /\ BatchGenerate.image entry = imgs (BatchGenerate.index entry)).
Proof.
  intros Hk Hfail Hok N expected.
  assert (Hlen : List.length expected = N - 1).
  { unfold expected, all_but. rewrite length_map. apply length_all_but_one. lia. }
  split; [|split; [exact Hlen|split]].
  - unfold BatchGenerate.batchGenerateThumbnails, BatchGenerate.batchGenerateFlow,
      defineFlow, BatchGenerate.InputSchema, BatchGenerate.fn.
    cbn beta iota. unfold bind at 1.
    destruct (@loop_collects ai input (List.length (calls fx)) k imgs Hok Hfail
                (List.length (BatchGenerate.prompts input)) 0 [] fx)
      as [fx' [Hloop _]]; [lia | lia |].
    rewrite Hloop. cbn [app ret fst].
    fold N. fold expected. now rewrite Hlen.
  - unfold expected, all_but. rewrite map_map. cbn [BatchGenerate.index batch_entry].
    apply map_id.
  - intros entry Hin. unfold expected in Hin.
    apply in_map_iff in Hin. destruct Hin as [i [<- _]]. split; reflexivity.
Qed.

Lemma batch_skips_the_failed_item_witness :
  1 < List.length (BatchGenerate.prompts sample_batch_input)
  /\ BatchGenerate.thumbnails
       (match fst (BatchGenerate.batchGenerateThumbnails
                     second_call_fails sample_batch_input no_effects) with
        | Normal out => out
        | Throw _ => BatchGenerate.mkOutput [] S754_nan
        end)
     = [BatchGenerate.mkThumbnail (sample_image 0) "intro" 0;
        BatchGenerate.mkThumbnail (sample_image 2) "outro" 2].
Proof.
  assert (Hk : 1 < List.length (BatchGenerate.prompts sample_batch_input))
    by (cbn; lia).
  split; [exact Hk|].
  destruct (@batch_skips_the_failed_item second_call_fails sample_batch_input
              no_effects 1 sample_image Hk) as [Hrun _].
  - eexists. reflexivity.
  - intros i Hi Hne. cbn in Hi.
    destruct i as [|[|[|i]]]; try lia; eexists; repeat split; reflexivity.
  - rewrite Hrun. reflexivity.
Defined.

(** C8.  With no prompt at all the body of the batch flow makes no
    provider call and computes the consistency score as the quotient of 0
    by 0, which is NaN and no ratio: nothing guards the division. *)
Theorem empty_batch_scores_nan
    (ai : Provider) (input : BatchGenerate.Input) (fx : Effects) :
  BatchGenerate.prompts input = [] ->
  BatchGenerate.fn ai input fx
    = (Normal (BatchGenerate.mkOutput []
                 (Number_div (Number_of_nat 0) (Number_of_nat 0))), fx)
  /\ Number_isNaN (Number_div (Number_of_nat 0) (Number_of_nat 0)) = true
  /\ calls (snd (BatchGenerate.fn ai input fx)) = calls fx.
Proof.
  intros Hnone.
  assert (Hfn : BatchGenerate.fn ai input fx
                = (Normal (BatchGenerate.mkOutput []
                             (Number_div (Number_of_nat 0) (Number_of_nat 0))), fx)).
  { unfold BatchGenerate.fn. rewrite Hnone. reflexivity. }
  split; [exact Hfn|]. split; [reflexivity|].
  now rewrite Hfn.
Qed.

Lemma empty_batch_scores_nan_witness :
  BatchGenerate.prompts empty_batch_input = []
  /\ BatchGenerate.fn failing_provider empty_batch_input no_effects
     = (Normal (BatchGenerate.mkOutput [] S754_nan), no_effects).
Proof.
  split; [reflexivity|].
  exact (proj1 (empty_batch_scores_nan failing_provider empty_batch_input
                  no_effects eq_refl)).
Defined.

(** ** Consistency modes of the batch *)

(** The claim C9 as stated fails: with mode 'character' and no character
    reference, the request is not the one of mode 'none'. *)
Lemma character_without_reference_is_not_none :
  reference_missing character_without_reference = true
  /\ BatchGenerate.request character_without_reference "intro"
     <> BatchGenerate.request
          (with_consistencyMode BatchGenerate.none character_without_reference) "intro".
Proof.
  split; [reflexivity|].
  intros Heq. apply (f_equal system) in Heq.
  vm_compute in Heq. discriminate Heq.
Qed.

(** C9, amended.  In mode 'character' without a character reference, and
    in mode 'style' without a style reference, no consistency sentence is
    appended and no reference image is attached, so the model and the
    prompt parts of every request are those of mode 'none'; the system
    instruction still names the mode as critical, which the one of mode
    'none' does not. *)
Theorem missing_reference_leaves_the_prompt_alone
    (input : BatchGenerate.Input) (p : string) :
  reference_missing input = true ->
  BatchGenerate.consistencyInstruction input = ""
  /\ BatchGenerate.referenceImages input = []
  /\ prompt (BatchGenerate.request input p)
     = prompt (BatchGenerate.request (with_consistencyMode BatchGenerate.none input) p)
  /\ model (BatchGenerate.request input p)
     = model (BatchGenerate.request (with_consistencyMode BatchGenerate.none input) p)
  /\ includes ("(" ++ BatchGenerate.mode_string (BatchGenerate.consistencyMode input)
               ++ " consistency is CRITICAL)")
              (system (BatchGenerate.request input p)) = true
  /\ includes "consistency is CRITICAL"
       (system (BatchGenerate.request
                  (with_consistencyMode BatchGenerate.none input) p)) = false.
Proof.
  intros Hmissing.
  assert (Hnone : BatchGenerate.consistency input = ("", [])).
  { unfold reference_missing in Hmissing. unfold BatchGenerate.consistency.
    destruct (BatchGenerate.consistencyMode input); try discriminate.
    - destruct (BatchGenerate.characterReference input) as [ref|]; [|reflexivity].
      cbn in Hmissing. destruct (truthy ref); [discriminate | reflexivity].
    - destruct (BatchGenerate.styleReference input) as [ref|].
      + cbn in Hmissing. destruct (truthy ref); [discriminate|].
        now destruct (BatchGenerate.characterReference input).
      + now destruct (BatchGenerate.characterReference input). }
  assert (Hnone' : BatchGenerate.consistency
                     (with_consistencyMode BatchGenerate.none input) = ("", [])).
  { unfold BatchGenerate.consistency, with_consistencyMode. cbn.
    destruct (BatchGenerate.characterReference input);
      now destruct (BatchGenerate.styleReference input). }
  split; [unfold BatchGenerate.consistencyInstruction; now rewrite Hnone|].
  split; [unfold BatchGenerate.referenceImages; now rewrite Hnone|].
  split.
  { unfold BatchGenerate.request, BatchGenerate.enhancedPrompt,
      BatchGenerate.referenceImages, BatchGenerate.consistencyInstruction.
    cbn [prompt]. rewrite Hnone, Hnone'. reflexivity. }
  split; [reflexivity|].
  unfold reference_missing in Hmissing.
  destruct input as [ps base r sref cref m]. cbn in Hmissing.
  split.
  - destruct m; try discriminate; destruct r; vm_compute; reflexivity.
  - destruct r; vm_compute; reflexivity.
Qed.

Lemma missing_reference_leaves_the_prompt_alone_witness :
  reference_missing character_without_reference = true
  /\ prompt (BatchGenerate.request character_without_reference "intro")
     = prompt (BatchGenerate.request
                 (with_consistencyMode BatchGenerate.none character_without_reference)
                 "intro").
Proof.
  split; [reflexivity|].
  apply (missing_reference_leaves_the_prompt_alone character_without_reference "intro").
  reflexivity.
Defined.

(** ** The dominant image of a fusion *)

Lemma fusion_runs_both_calls
    (ai : Provider) (input : IntelligentFusion.Input) (fx : Effects)
    (analysis : GenerateResponse) :
  IntelligentFusion.InputSchema input = true ->
  ai (List.length (calls fx)) (IntelligentFusion.analysis_request input) = Normal analysis ->
  calls (snd (IntelligentFusion.intelligentFusion ai input fx))
  = (calls fx ++ [IntelligentFusion.analysis_request input;
                  IntelligentFusion.fusion_request input (text analysis)])%list.
Proof.
  intros Hschema Hanalysis.
  unfold IntelligentFusion.intelligentFusion, IntelligentFusion.intelligentFusionFlow.
  rewrite defineFlow_accepts by exact Hschema.
  unfold IntelligentFusion.fn, bind, ai_generate. cbn beta iota.
  rewrite Hanalysis. cbn [calls console].
  destruct (ai (List.length (calls fx ++ [_])) _) as [response|e]; cbn.
  - rewrite <- app_assoc. cbn [app].
    destruct (media response) as [[u]|]; cbn; [destruct (truthy u)|]; reflexivity.
  - now rewrite <- app_assoc.
Qed.

(** C10.  The fusion schema never looks at [dominantImage]: whatever the
    index, negative or beyond the images, an input with 2 to 4 images is
    accepted.  Once the analysis call has answered, the flow sends the
    fusion request, whose text carries the sentence "Use image d + 1 as the
    dominant base composition." when the index is [d], and carries no
    dominant instruction, the aspect-ratio line ending at once, when the
    index is undefined.  (The index ranges over the safe integers, for
    which the embedding of [d + 1] and of its printing is exact.) *)
Theorem dominant_image_is_not_validated
    (ai : Provider) (input : IntelligentFusion.Input) (fx : Effects)
    (analysis : GenerateResponse) :
  dominantImage_is_index input = true ->
  IntelligentFusion.InputSchema input = true ->
  ai (List.length (calls fx)) (IntelligentFusion.analysis_request input) = Normal analysis ->
  (forall d, IntelligentFusion.InputSchema (with_dominantImage d input) = true)
  /\ calls (snd (IntelligentFusion.intelligentFusion ai input fx))
     = (calls fx ++ [IntelligentFusion.analysis_request input;
                     IntelligentFusion.fusion_request input (text analysis)])%list
  /\ prompt (IntelligentFusion.fusion_request input (text analysis))
     = (map MediaPart (IntelligentFusion.images input)
        ++ [TextPart (IntelligentFusion.fusion_text input (text analysis))])%list
  /\ match IntelligentFusion.dominantImage input with
     | Some d =>
         IntelligentFusion.dominantInstruction input
         = " Use image " ++ Z_toString (d + 1) ++ " as the dominant base composition."
         /\ includes
              ("- Aspect ratio: exactly "
               ++ ratio_string (IntelligentFusion.aspectRatio input)
               ++ " Use image " ++ Z_toString (d + 1)
               ++ " as the dominant base composition." ++ nl)
              (IntelligentFusion.fusion_text input (text analysis)) = true
     | None =>
         IntelligentFusion.dominantInstruction input = ""
         /\ includes
              ("- Aspect ratio: exactly "
               ++ ratio_string (IntelligentFusion.aspectRatio input) ++ nl)
              (IntelligentFusion.fusion_text input (text analysis)) = true
     end.
Proof.
  intros _ Hschema Hanalysis.
  split; [intros d; exact Hschema|].
  split; [now apply fusion_runs_both_calls|].
  split; [reflexivity|].
  unfold IntelligentFusion.dominantInstruction, IntelligentFusion.fusion_text,
    IntelligentFusion.dominantInstruction.
  destruct (IntelligentFusion.dominantImage input) as [d|].
  - split; [reflexivity|].
    do 11 apply includes_skip. rewrite !append_assoc.
    apply includes_prefix. do 5 apply prefix_app_cancel. apply prefix_refl_app.
  - split; [reflexivity|].
    do 11 apply includes_skip.
    apply includes_prefix. do 2 apply prefix_app_cancel.
    change ("" ++ ?x) with x. apply prefix_refl_app.
Qed.

Lemma dominant_image_is_not_validated_witness :
  dominantImage_is_index fusion_with_stray_index = true
  /\ IntelligentFusion.InputSchema fusion_with_stray_index = true
  /\ helpful_provider (List.length (calls no_effects))
       (IntelligentFusion.analysis_request fusion_with_stray_index)
     = Normal (mkResponse (Some "two portraits, warm light") None
                 (Some (mkMedia (sample_image 0))))
  /\ IntelligentFusion.dominantInstruction fusion_with_stray_index
     = " Use image 8 as the dominant base composition.".
Proof.
  split; [reflexivity|]. split; [reflexivity|]. split; [reflexivity|].
  destruct (@dominant_image_is_not_validated helpful_provider fusion_with_stray_index
              no_effects _ eq_refl eq_refl eq_refl) as [_ [_ [_ Hsentence]]].
  cbn [IntelligentFusion.dominantImage fusion_with_stray_index] in Hsentence.
  exact (proj1 Hsentence).
Defined.

(** ** The generation history of the page *)

Lemma handleOptimizePrompt_history (ai : Provider) (s : Page.State) (fx : Effects) :
  Page.generationHistory (fst (Page.handleOptimizePrompt ai s fx))
  = Page.generationHistory s.
Proof.
  unfold Page.handleOptimizePrompt.
  destruct (truthy (Page.prompt s)); cbn [negb]; [|reflexivity].
  destruct (Actions.optimizePromptAction ai _ fx) as [[[optimized|error]|e] fx'];
    reflexivity.
Qed.

Lemma handleEdit_history (ai : Provider) (s : Page.State) (fx : Effects) :
  Page.generationHistory (fst (Page.handleEdit ai s fx)) = Page.generationHistory s.
Proof.
  unfold Page.handleEdit.
  destruct (truthy (Page.editPrompt s)); [|reflexivity].
  destruct (Page.generatedThumbnail s) as [base|]; [|reflexivity].
  destruct (truthy base); [|reflexivity].
  destruct (Actions.editThumbnailAction ai _ fx) as [[[thumbnail|error]|e] fx'];
    reflexivity.
Qed.

Lemma handleGenerate_history (ai : Provider) (now : Z) (s : Page.State) (fx : Effects) :
  Page.generationHistory (fst (Page.handleGenerate ai now s fx))
  = if truthy (Page.optimizedPrompt s)
    then match fst (Actions.generateThumbnailAction ai (Page.generate_input s) fx) with
         | Normal (Actions.Success thumbnail) =>
             (Page.generationHistory s
              ++ [HistoryEntry.make (Page.optimizedPrompt s) thumbnail now
                    (Page.aspectRatio s)])%list
         | _ => Page.generationHistory s
         end
    else Page.generationHistory s.
Proof.
  unfold Page.handleGenerate.
  destruct (truthy (Page.optimizedPrompt s)); cbn [negb]; [|reflexivity].
  destruct (Actions.generateThumbnailAction ai _ fx) as [[[thumbnail|error]|e] fx'];
    reflexivity.
Qed.

Lemma handle_history (ai : Provider) (e : Page.Event) (s : Page.State) (fx : Effects) :
  exists added,
    Page.generationHistory (fst (Page.handle ai e s fx))
    = (Page.generationHistory s ++ added)%list
    /\ List.length added <= 1.
Proof.
  destruct e; cbn [Page.handle fst]; try history_same.
  - unfold Page.handleImageChange.
    destruct files as [files|]; [|history_same].
    destruct (_ >? _)%Z; [history_same|].
    destruct (Page.read_all files); history_same.
  - rewrite handleOptimizePrompt_history. history_same.
  - rewrite handleGenerate_history.
    destruct (truthy (Page.optimizedPrompt s)); [|history_same].
    destruct (fst (Actions.generateThumbnailAction ai _ fx)) as [[thumbnail|error]|err];
      try history_same.
    eexists. split; [reflexivity | cbn; lia].
  - rewrite handleEdit_history. history_same.
  - destruct (Page.generatedThumbnail s); history_same.
  - destruct (nth_error (Page.shown_history s) position); history_same.
Qed.

(** C7.  A click on Generate whose action succeeds with [thumbnail]
    appends the one entry [{prompt, image, timestamp, aspectRatio}] at the
    end of the history; a click that is refused for want of an optimized
    prompt, or whose action fails, leaves the history as it was; and no
    handler of the page, hence no session, ever changes or drops an entry
    that is already there. *)
Theorem history_is_append_only (ai : Provider) :
  (forall now s fx thumbnail,
      truthy (Page.optimizedPrompt s) = true ->
      fst (Actions.generateThumbnailAction ai (Page.generate_input s) fx)
        = Normal (Actions.Success thumbnail) ->
      Page.generationHistory (fst (Page.handleGenerate ai now s fx))
      = (Page.generationHistory s
         ++ [HistoryEntry.make (Page.optimizedPrompt s) thumbnail now
               (Page.aspectRatio s)])%list)
  /\ (forall now s fx,
      (truthy (Page.optimizedPrompt s) = false
       \/ exists error,
            fst (Actions.generateThumbnailAction ai (Page.generate_input s) fx)
            = Normal (Actions.Failure error)) ->
      Page.generationHistory (fst (Page.handleGenerate ai now s fx))
      = Page.generationHistory s)
  /\ (forall e s fx,
      exists added,
        Page.generationHistory (fst (Page.handle ai e s fx))
        = (Page.generationHistory s ++ added)%list
        /\ List.length added <= 1)
  /\ (forall events s fx,
      exists added,
        Page.generationHistory (fst (Page.run ai events s fx))
        = (Page.generationHistory s ++ added)%list).
Proof.
  split; [|split; [|split]].
  - intros now s fx thumbnail Hprompt Hok.
    now rewrite handleGenerate_history, Hprompt, Hok.
  - intros now s fx Hcase. rewrite handleGenerate_history.
    destruct Hcase as [Hprompt | [error Hfail]].
    + now rewrite Hprompt.
    + rewrite Hfail. now destruct (truthy (Page.optimizedPrompt s)).
  - intros e s fx. apply handle_history.
  - induction events as [|e events IH]; intros s fx.
    + exists []. cbn. now rewrite app_nil_r.
    + cbn [Page.run].
      destruct (handle_history ai e s fx) as [first [Hfirst _]].
      destruct (Page.handle ai e s fx) as [s1 fx1]. cbn [fst] in Hfirst.
      destruct (IH s1 fx1) as [rest Hrest].
      exists (first ++ rest)%list. now rewrite Hrest, Hfirst, app_assoc.
Qed.

Lemma history_is_append_only_witness :
  truthy (Page.optimizedPrompt page_ready) = true
  /\ fst (Actions.generateThumbnailAction helpful_provider
            (Page.generate_input page_ready) no_effects)
     = Normal (Actions.Success (sample_image 0))
  /\ Page.generationHistory
       (fst (Page.handleGenerate helpful_provider 1700000000000 page_ready no_effects))
     = [HistoryEntry.make "A red car on a beach, 1:1." (sample_image 0)
          1700000000000 R1_1].
Proof.
  split; [reflexivity|]. split; [reflexivity|].
  apply (proj1 (history_is_append_only helpful_provider)
           1700000000000%Z page_ready no_effects (sample_image 0));
    reflexivity.
Defined.

(* ================================================================= *)
(** * Further properties of the flows and of the page *)

(** ** One provider call per flow *)

(** The optimizer flow, case by case on what the text model answers. *)
Lemma optimize_flow_run (ai : Provider) (input : OptimizePrompt.Input) (fx : Effects) :
  OptimizePrompt.optimizePrompt ai input fx
  = let sent := (calls fx ++ [OptimizePrompt.request input])%list in
    let back := OptimizePrompt.mkOutput (OptimizePrompt.fallback input) in
    match ai (List.length (calls fx)) (OptimizePrompt.request input) with
    | Throw _ =>
        (Normal back,
         mkEffects sent (console fx ++ ["optimizePrompt: model call failed"]))
    | Normal response =>
        match js_or (text response) (output_text response) with
        | Some final =>
            if truthy final
            then (Normal (OptimizePrompt.mkOutput final), mkEffects sent (console fx))
            else (Normal back,
                  mkEffects sent
                    (console fx ++ ["optimizePrompt: empty response from model"]))
        | None =>
            (Normal back,
             mkEffects sent (console fx ++ ["optimizePrompt: empty response from model"]))
        end
    end.
Proof.
  unfold OptimizePrompt.optimizePrompt, OptimizePrompt.optimizePromptFlow,
    defineFlow, OptimizePrompt.InputSchema, OptimizePrompt.fn,
    bind, try_catch, ai_generate, console_error, ret.
  cbn beta iota zeta.
  destruct (ai (List.length (calls fx)) (OptimizePrompt.request input))
    as [response|e]; cbn; [|reflexivity].
  destruct (js_or (text response) (output_text response)) as [final|]; [|reflexivity].
  destruct (truthy final); reflexivity.
Qed.

(** The generator flow: one call, then the image or an error. *)
Lemma generate_flow_run (ai : Provider) (input : GenerateThumbnail.Input) (fx : Effects) :
  GenerateThumbnail.generateThumbnailFromPrompt ai input fx
  = (match ai (List.length (calls fx)) (GenerateThumbnail.request input) with
     | Throw e => Throw e
     | Normal response =>
         match media_url (media response) with
         | Some u =>
             if truthy u
             then Normal (GenerateThumbnail.mkOutput u)
             else Throw GenerateThumbnail.no_image
         | None => Throw GenerateThumbnail.no_image
         end
     end,
     mkEffects (calls fx ++ [GenerateThumbnail.request input]) (console fx)).
Proof.
  unfold GenerateThumbnail.generateThumbnailFromPrompt,
    GenerateThumbnail.generateThumbnailFromPromptFlow, defineFlow,
    GenerateThumbnail.InputSchema, GenerateThumbnail.fn, bind, ai_generate, throw, ret.
  cbn beta iota.
  destruct (ai (List.length (calls fx)) (GenerateThumbnail.request input))
    as [response|e]; [|reflexivity].
  destruct (media_url (media response)) as [u|]; [|reflexivity].
  destruct (truthy u); reflexivity.
Qed.

(** The editor flow: one call, then the image or an error. *)
Lemma edit_flow_run (ai : Provider) (input : EditThumbnail.Input) (fx : Effects) :
  EditThumbnail.iterativelyEditThumbnail ai input fx
  = (match ai (List.length (calls fx)) (EditThumbnail.request input) with
     | Throw e => Throw e
     | Normal response =>
         match media_url (media response) with
         | Some u =>
             if truthy u
             then Normal (EditThumbnail.mkOutput u)
             else Throw EditThumbnail.no_image
         | None => Throw EditThumbnail.no_image
         end
     end,
     mkEffects (calls fx ++ [EditThumbnail.request input]) (console fx)).
Proof.
  unfold EditThumbnail.iterativelyEditThumbnail,
    EditThumbnail.iterativelyEditThumbnailFlow, defineFlow,
    EditThumbnail.InputSchema, EditThumbnail.fn, bind, ai_generate, throw, ret.
  cbn beta iota.
  destruct (ai (List.length (calls fx)) (EditThumbnail.request input))
    as [response|e]; [|reflexivity].
  destruct (media response) as [[u]|]; cbn; [|reflexivity].
  destruct (truthy u); reflexivity.
Qed.

(** The generate action: the image, or the message of what went wrong and
    a console line. *)
Lemma generate_action_run (ai : Provider) (input : GenerateThumbnail.Input) (fx : Effects) :
  Actions.generateThumbnailAction ai input fx
  = let sent := (calls fx ++ [GenerateThumbnail.request input])%list in
    let failed (e : Error) :=
      (Normal (Actions.Failure (message e)),
       mkEffects sent (console fx ++ ["Error generating thumbnail:"])) in
    match ai (List.length (calls fx)) (GenerateThumbnail.request input) with
    | Throw e => failed e
    | Normal response =>
        match media_url (media response) with
        | Some u =>
            if truthy u
            then (Normal (Actions.Success u), mkEffects sent (console fx))
            else failed GenerateThumbnail.no_image
        | None => failed GenerateThumbnail.no_image
        end
    end.
Proof.
  unfold Actions.generateThumbnailAction, try_catch, bind, ret, console_error.
  rewrite generate_flow_run. cbn beta iota zeta.
  destruct (ai (List.length (calls fx)) (GenerateThumbnail.request input))
    as [response|e]; [|reflexivity].
  destruct (media_url (media response)) as [u|]; [|reflexivity].
  destruct (truthy u); reflexivity.
Qed.

Lemma edit_action_run (ai : Provider) (input : EditThumbnail.Input) (fx : Effects) :
  Actions.editThumbnailAction ai input fx
  = let sent := (calls fx ++ [EditThumbnail.request input])%list in
    let failed (e : Error) :=
      (Normal (Actions.Failure (message e)),
       mkEffects sent (console fx ++ ["Error editing thumbnail:"])) in
    match ai (List.length (calls fx)) (EditThumbnail.request input) with
    | Throw e => failed e
    | Normal response =>
        match media_url (media response) with
        | Some u =>
            if truthy u
            then (Normal (Actions.Success u), mkEffects sent (console fx))
            else failed EditThumbnail.no_image
        | None => failed EditThumbnail.no_image
        end
    end.
Proof.
  unfold Actions.editThumbnailAction, try_catch, bind, ret, console_error.
  rewrite edit_flow_run. cbn beta iota zeta.
  destruct (ai (List.length (calls fx)) (EditThumbnail.request input))
    as [response|e]; [|reflexivity].
  destruct (media_url (media response)) as [u|]; [|reflexivity].
  destruct (truthy u); reflexivity.
Qed.

Lemma fallback_truthy (input : OptimizePrompt.Input) :
  truthy (OptimizePrompt.fallback input) = true.
Proof.
  rewrite fallback_trimmed. reflexivity.
Qed.

(** The optimize action always succeeds; its prompt and what it sends. *)
Lemma optimize_action_run (ai : Provider) (input : OptimizePrompt.Input) (fx : Effects) :
  exists optimized fx',
    Actions.optimizePromptAction ai input fx = (Normal (Actions.Success optimized), fx')
    /\ truthy optimized = true
    /\ calls fx' = (calls fx ++ [OptimizePrompt.request input])%list.
Proof.
  unfold Actions.optimizePromptAction, try_catch, bind, ret.
  rewrite optimize_flow_run. cbn beta iota zeta.
  destruct (ai (List.length (calls fx)) (OptimizePrompt.request input))
    as [response|e].
  - destruct (js_or (text response) (output_text response)) as [final|].
    + destruct (truthy final) eqn:Hfinal;
        do 2 eexists; (split; [reflexivity|]); split;
        solve [reflexivity | assumption | apply fallback_truthy].
    + do 2 eexists; (split; [reflexivity|]); split;
        [apply fallback_truthy | reflexivity].
  - do 2 eexists; (split; [reflexivity|]); split;
      [apply fallback_truthy | reflexivity].
Qed.

(** X1.  The optimize action cannot fail: whatever the text model does,
    throw, answer nothing or answer a text, the action returns a success,
    and the prompt it carries is never the empty string. *)
Theorem optimizer_never_fails
    (ai : Provider) (input : OptimizePrompt.Input) (fx : Effects) :
  exists optimized,
    fst (Actions.optimizePromptAction ai input fx) = Normal (Actions.Success optimized)
    /\ truthy optimized = true.
Proof.
  destruct (optimize_action_run ai input fx) as [optimized [fx' [Hrun [Htruthy _]]]].
  exists optimized. rewrite Hrun. split; [reflexivity | exact Htruthy].
Qed.

(** X2.  A usable answer of the text model is returned as it is, and
    [response.text] goes before [response.output.text]: the optimized
    prompt is [response.text] when that is a non-empty string, and
    otherwise [response.output.text] when that is one; nothing is written
    to the console. *)
Theorem optimizer_returns_the_model_text
    (ai : Provider) (input : OptimizePrompt.Input) (fx : Effects)
    (response : GenerateResponse) (answer : string) :
  ai (List.length (calls fx)) (OptimizePrompt.request input) = Normal response ->
  truthy answer = true ->
  text response = Some answer
  \/ (truthy_opt (text response) = false /\ output_text response = Some answer) ->
  fst (Actions.optimizePromptAction ai input fx) = Normal (Actions.Success answer)
  /\ console (snd (Actions.optimizePromptAction ai input fx)) = console fx.
Proof.
  intros Hanswer Htruthy Hwhere.
  assert (Hor : js_or (text response) (output_text response) = Some answer).
  { unfold js_or. destruct Hwhere as [Htext | [Hnone Hout]].
    - rewrite Htext. cbn. now rewrite Htruthy.
    - now rewrite Hnone. }
  unfold Actions.optimizePromptAction, try_catch, bind, ret.
  rewrite optimize_flow_run. cbn beta iota zeta.
  rewrite Hanswer, Hor, Htruthy. split; reflexivity.
Qed.

Lemma optimizer_returns_the_model_text_witness :
  output_provider (List.length (calls no_effects))
    (OptimizePrompt.request sample_optimize_input)
  = Normal (mkResponse (Some "") (Some "A red sports car, from output.") None)
  /\ fst (Actions.optimizePromptAction output_provider sample_optimize_input no_effects)
     = Normal (Actions.Success "A red sports car, from output.").
Proof.
  split; [reflexivity|].
  apply (@optimizer_returns_the_model_text output_provider sample_optimize_input
           no_effects _ "A red sports car, from output." eq_refl eq_refl).
  right. split; reflexivity.
Defined.

(** X3.  Optimizing, generating and editing each send exactly one request
    to the provider, whatever it answers or throws: there is no retry and
    no second call. *)
Theorem one_request_per_action (ai : Provider) (fx : Effects) :
  (forall input,
      calls (snd (Actions.optimizePromptAction ai input fx))
      = (calls fx ++ [OptimizePrompt.request input])%list)
  /\ (forall input,
      calls (snd (Actions.generateThumbnailAction ai input fx))
      = (calls fx ++ [GenerateThumbnail.request input])%list)
  /\ (forall input,
      calls (snd (Actions.editThumbnailAction ai input fx))
      = (calls fx ++ [EditThumbnail.request input])%list).
Proof.
  repeat split; intros input.
  - destruct (optimize_action_run ai input fx) as [optimized [fx' [Hrun [_ Hcalls]]]].
    now rewrite Hrun.
  - rewrite generate_action_run. cbn zeta.
    destruct (ai _ _) as [response|e]; [|reflexivity].
    destruct (media_url (media response)) as [u|]; [|reflexivity].
    destruct (truthy u); reflexivity.
  - rewrite edit_action_run. cbn zeta.
    destruct (ai _ _) as [response|e]; [|reflexivity].
    destruct (media_url (media response)) as [u|]; [|reflexivity].
    destruct (truthy u); reflexivity.
Qed.

(** X4.  When the provider returns an image, the generate action and the
    edit action succeed with exactly that image's url, and write nothing
    to the console. *)
Theorem image_is_returned_as_it_is
    (ai : Provider) (fx : Effects) (response : GenerateResponse) (u : string) :
  media_url (media response) = Some u ->
  truthy u = true ->
  (forall input,
      ai (List.length (calls fx)) (GenerateThumbnail.request input) = Normal response ->
      fst (Actions.generateThumbnailAction ai input fx) = Normal (Actions.Success u)
      /\ console (snd (Actions.generateThumbnailAction ai input fx)) = console fx)
  /\ (forall input,
      ai (List.length (calls fx)) (EditThumbnail.request input) = Normal response ->
      fst (Actions.editThumbnailAction ai input fx) = Normal (Actions.Success u)
      /\ console (snd (Actions.editThumbnailAction ai input fx)) = console fx).
Proof.
  intros Hurl Htruthy. split; intros input Hanswer.
  - rewrite generate_action_run. cbn zeta. rewrite Hanswer, Hurl, Htruthy.
    split; reflexivity.
  - rewrite edit_action_run. cbn zeta. rewrite Hanswer, Hurl, Htruthy.
    split; reflexivity.
Qed.

Lemma image_is_returned_as_it_is_witness :
  truthy (sample_image 0) = true
  /\ fst (Actions.editThumbnailAction helpful_provider sample_edit_input no_effects)
     = Normal (Actions.Success (sample_image 0)).
Proof.
  split; [reflexivity|].
  apply (proj2 (@image_is_returned_as_it_is helpful_provider no_effects
                  (mkResponse (Some "two portraits, warm light") None
                     (Some (mkMedia (sample_image 0))))
                  (sample_image 0) eq_refl eq_refl) sample_edit_input).
  reflexivity.
Defined.

(** X5.  When the provider call throws, the generate and the edit flow
    throw the same error, the action returns a failure with the provider's
    message, and the handler's label is the one line added to the
    console. *)
Theorem provider_error_reaches_the_caller
    (ai : Provider) (fx : Effects) (e : Error) :
  (forall input,
      ai (List.length (calls fx)) (GenerateThumbnail.request input) = Throw e ->
      fst (GenerateThumbnail.generateThumbnailFromPrompt ai input fx) = Throw e
      /\ fst (Actions.generateThumbnailAction ai input fx)
         = Normal (Actions.Failure (message e))
      /\ console (snd (Actions.generateThumbnailAction ai input fx))
         = (console fx ++ ["Error generating thumbnail:"])%list)
  /\ (forall input,
      ai (List.length (calls fx)) (EditThumbnail.request input) = Throw e ->
      fst (EditThumbnail.iterativelyEditThumbnail ai input fx) = Throw e
      /\ fst (Actions.editThumbnailAction ai input fx)
         = Normal (Actions.Failure (message e))
      /\ console (snd (Actions.editThumbnailAction ai input fx))
         = (console fx ++ ["Error editing thumbnail:"])%list).
Proof.
  split; intros input Hthrow.
  - rewrite generate_flow_run, generate_action_run. cbn zeta. rewrite Hthrow.
    repeat split.
  - rewrite edit_flow_run, edit_action_run. cbn zeta. rewrite Hthrow.
    repeat split.
Qed.

Lemma provider_error_reaches_the_caller_witness :
  failing_provider (List.length (calls no_effects))
    (GenerateThumbnail.request sample_generate_input)
  = Throw (mkError "quota exceeded")
  /\ fst (Actions.generateThumbnailAction failing_provider sample_generate_input
            no_effects)
     = Normal (Actions.Failure "quota exceeded").
Proof.
  split; [reflexivity|].
  apply (proj1 (provider_error_reaches_the_caller failing_provider no_effects
                  (mkError "quota exceeded")) sample_generate_input).
  reflexivity.
Defined.

(** ** The batch for an arbitrary provider *)

Section BatchAnyProvider.

Variable ai : Provider.
Variable input : BatchGenerate.Input.
Variable before : nat.

(** One turn of the loop, whatever the provider answers. *)
Lemma iteration_run (i : nat) (acc : list BatchGenerate.Thumbnail) (fx : Effects) :
  List.length (calls fx) = before + i ->
  BatchGenerate.iteration ai input i acc fx
  = (Normal (acc ++ batch_item ai input before i)%list,
     mkEffects
       (calls fx
        ++ [BatchGenerate.request input (nth i (BatchGenerate.prompts input) "")])
               (console fx ++ batch_item_log ai input before i)).
Proof.
  intros Hlen.
  unfold BatchGenerate.iteration, try_catch, bind, ai_generate, console_error, ret,
    batch_item, batch_item_log.
  cbn beta iota zeta. rewrite Hlen.
  destruct (ai (before + i) _) as [response|e]; cbn.
  - rewrite app_nil_r. destruct fx as [sent lines]. cbn.
    destruct (media_url (media response)) as [u|]; cbn;
      [destruct (truthy u)|]; now rewrite ?app_nil_r.
  - now rewrite app_nil_r.
Qed.

(** The loop is the list comprehension over its indices. *)
Lemma loop_run (count start : nat) (acc : list BatchGenerate.Thumbnail) (fx : Effects) :
  List.length (calls fx) = before + start ->
  for_loop count start (BatchGenerate.iteration ai input) acc fx
  = (Normal (acc ++ flat_map (batch_item ai input before) (seq start count))%list,
     mkEffects
       (calls fx
        ++ map (fun i => BatchGenerate.request input
                           (nth i (BatchGenerate.prompts input) ""))
             (seq start count))
               (console fx ++ flat_map (batch_item_log ai input before) (seq start count))).
Proof.
  revert start acc fx.
  induction count as [|count IH]; intros start acc fx Hlen.
  - cbn. rewrite !app_nil_r. now destruct fx.
  - cbn [for_loop]. unfold bind at 1. rewrite iteration_run by exact Hlen.
    rewrite IH by (cbn; rewrite length_app, Hlen; cbn; lia).
    cbn [seq flat_map map calls console]. now rewrite <- !app_assoc.
Qed.

End BatchAnyProvider.

Lemma map_nth_seq {A B} (f : A -> B) (d : A) (l : list A) :
  map (fun i => f (nth i l d)) (seq 0 (List.length l)) = map f l.
Proof.
  induction l as [|x l IH]; [reflexivity|].
  cbn [List.length seq map nth]. f_equal.
  rewrite <- seq_shift, map_map. exact IH.
Qed.

(** The whole batch flow for an arbitrary provider. *)
Lemma batch_run (ai : Provider) (input : BatchGenerate.Input) (fx : Effects) :
  let N := List.length (BatchGenerate.prompts input) in
  let collected := flat_map (batch_item ai input (List.length (calls fx))) (seq 0 N) in
  BatchGenerate.batchGenerateThumbnails ai input fx
  = (Normal (BatchGenerate.mkOutput collected
               (Number_div (Number_of_nat (List.length collected)) (Number_of_nat N))),
     mkEffects
       (calls fx ++ map (BatchGenerate.request input) (BatchGenerate.prompts input))
       (console fx
        ++ flat_map (batch_item_log ai input (List.length (calls fx))) (seq 0 N))).
Proof.
  intros N collected.
  unfold BatchGenerate.batchGenerateThumbnails, BatchGenerate.batchGenerateFlow,
    defineFlow, BatchGenerate.InputSchema, BatchGenerate.fn.
  cbn beta iota. unfold bind at 1.
  rewrite (@loop_run ai input (List.length (calls fx))) by lia.
  cbn [app ret].
  rewrite (map_nth_seq (BatchGenerate.request input) "" (BatchGenerate.prompts input)).
  reflexivity.
Qed.


(** What one item contributes: nothing, or its one entry. *)
Lemma batch_item_entry (ai : Provider) (input : BatchGenerate.Input) (before i : nat)
    (entry : BatchGenerate.Thumbnail) :
  In entry (batch_item ai input before i) ->
  BatchGenerate.index entry = i
  /\ BatchGenerate.prompt entry = nth i (BatchGenerate.prompts input) ""
  /\ truthy (BatchGenerate.image entry) = true
  /\ batch_item ai input before i = [entry].
Proof.
  unfold batch_item. cbn zeta.
  destruct (ai (before + i) _) as [response|e]; [|intros []].
  destruct (media_url (media response)) as [u|]; [|intros []].
  destruct (truthy u) eqn:Hu; [|intros []].
  intros [<-|[]]. cbn. now rewrite Hu.
Qed.

Lemma batch_item_short (ai : Provider) (input : BatchGenerate.Input) (before i : nat) :
  List.length (batch_item ai input before i) <= 1.
Proof.
  unfold batch_item. cbn zeta.
  destruct (ai (before + i) _) as [response|e]; [|cbn; lia].
  destruct (media_url (media response)) as [u|]; [|cbn; lia].
  destruct (truthy u); cbn; lia.
Qed.

Lemma collected_in_range (ai : Provider) (input : BatchGenerate.Input) (before : nat)
    (count start : nat) (entry : BatchGenerate.Thumbnail) :
  In entry (flat_map (batch_item ai input before) (seq start count)) ->
  start <= BatchGenerate.index entry < start + count
  /\ BatchGenerate.prompt entry
     = nth (BatchGenerate.index entry) (BatchGenerate.prompts input) ""
  /\ truthy (BatchGenerate.image entry) = true.
Proof.
  intros Hin. apply in_flat_map in Hin. destruct Hin as [i [Hi Hentry]].
  apply in_seq in Hi.
  destruct (batch_item_entry _ _ _ _ _ Hentry) as [Hindex [Hprompt [Himage _]]].
  rewrite Hindex. repeat split; try lia; assumption.
Qed.

Lemma collected_ascending (ai : Provider) (input : BatchGenerate.Input) (before : nat)
    (count start : nat) :
  ascending (map BatchGenerate.index
               (flat_map (batch_item ai input before) (seq start count))) = true.
Proof.
  revert start. induction count as [|count IH]; intros start; [reflexivity|].
  cbn [seq flat_map].
  destruct (batch_item ai input before start) as [|entry more] eqn:Hitem;
    [exact (IH (S start))|].
  assert (Hin : In entry (batch_item ai input before start))
    by (rewrite Hitem; now left).
  destruct (batch_item_entry _ _ _ _ _ Hin) as [Hindex [_ [_ Hone]]].
  rewrite Hitem in Hone. injection Hone as ->.
  cbn [app map ascending]. rewrite Hindex.
  specialize (IH (S start)).
  destruct (flat_map (batch_item ai input before) (seq (S start) count))
    as [|next rest] eqn:Hrest; [reflexivity|].
  cbn [map]. cbn [map] in IH. rewrite IH, andb_true_r.
  apply Nat.ltb_lt.
  assert (Hnext : In next (flat_map (batch_item ai input before) (seq (S start) count)))
    by (rewrite Hrest; now left).
  apply collected_in_range in Hnext. lia.
Qed.

Lemma collected_length (ai : Provider) (input : BatchGenerate.Input) (before : nat)
    (count start : nat) :
  List.length (flat_map (batch_item ai input before) (seq start count)) <= count.
Proof.
  revert start. induction count as [|count IH]; intros start; [cbn; lia|].
  cbn [seq flat_map]. rewrite length_app.
  pose proof (batch_item_short ai input before start).
  specialize (IH (S start)). lia.
Qed.



(** X8.  Whatever the provider does, the thumbnails a batch returns are at
    most as many as the prompts, their indices increase strictly and lie
    below the number of prompts, each entry's prompt is the input prompt
    at its index, and no entry has an empty image. *)
Theorem batch_thumbnails_are_well_formed
    (ai : Provider) (input : BatchGenerate.Input) (fx : Effects)
    (out : BatchGenerate.Output) :
  fst (BatchGenerate.batchGenerateThumbnails ai input fx) = Normal out ->
  List.length (BatchGenerate.thumbnails out) <= List.length (BatchGenerate.prompts input)
  /\ ascending (map BatchGenerate.index (BatchGenerate.thumbnails out)) = true
  /\ (forall entry, In entry (BatchGenerate.thumbnails out) ->
        BatchGenerate.index entry < List.length (BatchGenerate.prompts input)
        /\ BatchGenerate.prompt entry
           = nth (BatchGenerate.index entry) (BatchGenerate.prompts input) ""
        /\ truthy (BatchGenerate.image entry) = true).
Proof.
  rewrite batch_run. cbn zeta. cbn [fst]. intros Hout. injection Hout as <-.
  cbn [BatchGenerate.thumbnails]. split; [apply collected_length|].
  split; [apply collected_ascending|].
  intros entry Hin. apply collected_in_range in Hin.
  destruct Hin as [Hrange [Hprompt Himage]]. repeat split; try assumption; lia.
Qed.

Lemma batch_thumbnails_are_well_formed_witness :
  fst (BatchGenerate.batchGenerateThumbnails second_call_fails sample_batch_input
         no_effects)
  = Normal (BatchGenerate.mkOutput
              [BatchGenerate.mkThumbnail (sample_image 0) "intro" 0;
               BatchGenerate.mkThumbnail (sample_image 2) "outro" 2]
              (Number_div (Number_of_nat 2) (Number_of_nat 3)))
  /\ ascending [0; 2] = true.
Proof.
  split; [reflexivity|].
  exact (proj1 (proj2 (@batch_thumbnails_are_well_formed second_call_fails
                         sample_batch_input no_effects _ eq_refl))).
Defined.







(** ** The two calls of a fusion *)

Lemma fusion_schema_accepts (input : IntelligentFusion.Input) :
  2 <= List.length (IntelligentFusion.images input) <= 4 ->
  IntelligentFusion.InputSchema input = true.
Proof.
  intros [Hlow Hhigh]. unfold IntelligentFusion.InputSchema.
  apply andb_true_intro. split; now apply Nat.leb_le.
Qed.

(** The fusion flow on an input the schema accepts, case by case. *)
Lemma fusion_run (ai : Provider) (input : IntelligentFusion.Input) (fx : Effects) :
  IntelligentFusion.InputSchema input = true ->
  IntelligentFusion.intelligentFusion ai input fx
  = match ai (List.length (calls fx)) (IntelligentFusion.analysis_request input) with
    | Throw e =>
        (Throw e,
         mkEffects (calls fx ++ [IntelligentFusion.analysis_request input]) (console fx))
    | Normal analysis =>
        (match ai (S (List.length (calls fx)))
                 (IntelligentFusion.fusion_request input (text analysis)) with
         | Throw e => Throw e
         | Normal response =>
             match media_url (media response) with
             | Some u =>
                 if truthy u
                 then Normal (IntelligentFusion.result input u)
                 else Throw IntelligentFusion.no_image
             | None => Throw IntelligentFusion.no_image
             end
         end,
         mkEffects
           (calls fx ++ [IntelligentFusion.analysis_request input;
                         IntelligentFusion.fusion_request input (text analysis)])
           (console fx))
    end.
Proof.
  intros Hschema.
  unfold IntelligentFusion.intelligentFusion, IntelligentFusion.intelligentFusionFlow.
  rewrite defineFlow_accepts by exact Hschema.
  unfold IntelligentFusion.fn, bind, ai_generate, throw, ret. cbn beta iota.
  destruct (ai (List.length (calls fx)) (IntelligentFusion.analysis_request input))
    as [analysis|e]; [|reflexivity].
  cbn [calls console]. rewrite length_app, Nat.add_1_r. cbn [List.length].
  rewrite <- app_assoc. cbn [app].
  destruct (ai (S (List.length (calls fx))) _) as [response|e]; [|reflexivity].
  destruct (media_url (media response)) as [u|]; [|reflexivity].
  destruct (truthy u); reflexivity.
Qed.

(** X11.  When the analysis call of a fusion throws, the flow throws the
    same error at once: the image call is never made, so exactly one
    request has been sent, and the action returns a failure with the
    provider's message. *)
Theorem fusion_stops_when_the_analysis_fails
    (ai : Provider) (input : IntelligentFusion.Input) (fx : Effects) (e : Error) :
  2 <= List.length (IntelligentFusion.images input) <= 4 ->
  ai (List.length (calls fx)) (IntelligentFusion.analysis_request input) = Throw e ->
  IntelligentFusion.intelligentFusion ai input fx
  = (Throw e,
     mkEffects (calls fx ++ [IntelligentFusion.analysis_request input]) (console fx))
  /\ fst (Actions.intelligentFusionAction ai input fx)
     = Normal (Actions.Failure (message e))
  /\ calls (snd (Actions.intelligentFusionAction ai input fx))
     = (calls fx ++ [IntelligentFusion.analysis_request input])%list.
Proof.
  intros Hcount Hthrow.
  assert (Hflow : IntelligentFusion.intelligentFusion ai input fx
                  = (Throw e,
                     mkEffects (calls fx ++ [IntelligentFusion.analysis_request input])
                       (console fx))).
  { rewrite fusion_run by now apply fusion_schema_accepts. now rewrite Hthrow. }
  split; [exact Hflow|].
  unfold Actions.intelligentFusionAction, try_catch, bind, ret, console_error.
  rewrite Hflow. split; reflexivity.
Qed.

Lemma fusion_stops_when_the_analysis_fails_witness :
  2 <= List.length (IntelligentFusion.images sample_pair_input) <= 4
  /\ calls (snd (Actions.intelligentFusionAction failing_provider sample_pair_input
                   no_effects))
     = [IntelligentFusion.analysis_request sample_pair_input].
Proof.
  assert (H : 2 <= List.length (IntelligentFusion.images sample_pair_input) <= 4)
    by (cbn; lia).
  split; [exact H|].
  exact (proj2 (proj2 (@fusion_stops_when_the_analysis_fails failing_provider
                         sample_pair_input no_effects _ H eq_refl))).
Defined.

(** X12.  A fusion whose two calls answer, the second with an image:
    the action succeeds, [fusedImage] is that image's url,
    [primaryElements] names one element per input image, numbered from 1,
    and both requests carried every input image, in order, before their
    text. *)
Theorem fusion_success
    (ai : Provider) (input : IntelligentFusion.Input) (fx : Effects)
    (analysis response : GenerateResponse) (u : string) :
  2 <= List.length (IntelligentFusion.images input) <= 4 ->
  ai (List.length (calls fx)) (IntelligentFusion.analysis_request input)
    = Normal analysis ->
  ai (S (List.length (calls fx))) (IntelligentFusion.fusion_request input (text analysis))
    = Normal response ->
  media_url (media response) = Some u ->
  truthy u = true ->
  exists out,
    fst (Actions.intelligentFusionAction ai input fx) = Normal (Actions.Success out)
    /\ IntelligentFusion.fusedImage out = u
    /\ List.length (IntelligentFusion.primaryElements
                      (IntelligentFusion.technicalDetails out))
       = List.length (IntelligentFusion.images input)
    /\ (forall i, i < List.length (IntelligentFusion.images input) ->
          nth_error (IntelligentFusion.primaryElements
                       (IntelligentFusion.technicalDetails out)) i
          = Some ("Elements from image " ++ nat_toString (S i)))
    /\ firstn (List.length (IntelligentFusion.images input))
         (prompt (IntelligentFusion.analysis_request input))
       = map MediaPart (IntelligentFusion.images input)
    /\ firstn (List.length (IntelligentFusion.images input))
         (prompt (IntelligentFusion.fusion_request input (text analysis)))
       = map MediaPart (IntelligentFusion.images input).
Proof.
  intros Hcount Hanalysis Hresponse Hurl Htruthy.
  exists (IntelligentFusion.result input u).
  assert (Hfirstn : forall (parts : list Part),
             firstn (List.length (IntelligentFusion.images input))
               (map MediaPart (IntelligentFusion.images input) ++ parts)
             = map MediaPart (IntelligentFusion.images input)).
  { intros parts.
    rewrite <- (length_map MediaPart (IntelligentFusion.images input)) at 1.
    rewrite firstn_app, firstn_all, Nat.sub_diag. cbn. apply app_nil_r. }
  split; [|split; [reflexivity|split; [|split; [|split]]]].
  - unfold Actions.intelligentFusionAction, try_catch, bind, ret.
    rewrite fusion_run by now apply fusion_schema_accepts.
    now rewrite Hanalysis, Hresponse, Hurl, Htruthy.
  - cbn. now rewrite length_map, length_seq.
  - intros i Hi. cbn.
    rewrite nth_error_map, nth_error_seq.
    apply Nat.ltb_lt in Hi. rewrite Hi. cbn. now rewrite Nat.add_1_r.
  - apply Hfirstn.
  - apply Hfirstn.
Qed.

Lemma fusion_success_witness :
  2 <= List.length (IntelligentFusion.images sample_pair_input) <= 4
  /\ truthy (sample_image 1) = true
  /\ exists out,
       fst (Actions.intelligentFusionAction helpful_provider sample_pair_input
              no_effects) = Normal (Actions.Success out)
       /\ IntelligentFusion.fusedImage out = sample_image 1.
Proof.
  assert (H : 2 <= List.length (IntelligentFusion.images sample_pair_input) <= 4)
    by (cbn; lia).
  split; [exact H|]. split; [reflexivity|].
  destruct (@fusion_success helpful_provider sample_pair_input no_effects
              _ _ (sample_image 1) H eq_refl eq_refl eq_refl eq_refl)
    as [out [Hrun [Himage _]]].
  exists out. split; [exact Hrun | exact Himage].
Defined.

(** ** The image parts of a request *)

(** X13.  The two ways the sources collect the reference images, the
    [filter(Boolean).map(...)] of the optimizer and the three guarded
    [push] calls of the generator, build the same list: the images that
    are defined and non-empty, in slot order, so at most three media parts
    precede the text of a request, and none has an empty url. *)
Theorem image_parts_keep_the_given_images (image1 image2 image3 : option string) :
  imageParts_filter_map image1 image2 image3 = media_parts [image1; image2; image3]
  /\ mediaParts_pushes image1 image2 image3 = media_parts [image1; image2; image3]
  /\ List.length (media_parts [image1; image2; image3]) <= 3
  /\ (forall part, In part (media_parts [image1; image2; image3]) ->
        exists u, part = MediaPart u /\ truthy u = true
                  /\ In (Some u) [image1; image2; image3]).
Proof.
  destruct image1 as [[|c1 u1]|], image2 as [[|c2 u2]|], image3 as [[|c3 u3]|];
    (split; [reflexivity|]); (split; [reflexivity|]); (split; [cbn; lia|]);
    intros part Hin; cbn in Hin;
    repeat (destruct Hin as [<-|Hin];
            [eexists; split; [reflexivity|]; split; [reflexivity|]; cbn; tauto|]);
    destruct Hin.
Qed.

(** ** Uploads *)

Lemma read_all_spec (files : list (option string)) :
  match Page.read_all files with
  | Some dataUris => files = map Some dataUris
  | None => In None files
  end.
Proof.
  induction files as [|[dataUri|] files IH]; cbn; [reflexivity| |now left].
  destruct (Page.read_all files) as [dataUris|]; [now rewrite IH | now right].
Qed.

(** X14.  Choosing files either adds all of them or none.  When they fit
    beside the uploads already there and every one is read, they are
    appended in order and no toast is shown; when they would exceed three
    images in total, or one cannot be read, the uploads stay as they are
    and one toast is shown. *)
Theorem upload_is_all_or_nothing (files : list (option string)) (s : Page.State) :
  let s' := Page.handleImageChange (Some files) s in
  (exists dataUris,
      files = map Some dataUris
      /\ List.length (Page.uploadedImages s) + List.length dataUris <= 3
      /\ Page.uploadedImages s' = (Page.uploadedImages s ++ dataUris)%list
      /\ Page.toasts s' = Page.toasts s)
  \/ ((3 < List.length (Page.uploadedImages s) + List.length files \/ In None files)
      /\ Page.uploadedImages s' = Page.uploadedImages s
      /\ exists shown, Page.toasts s' = (Page.toasts s ++ [shown])%list).
Proof.
  cbn zeta. unfold Page.handleImageChange, Page.MAX_IMAGES.
  destruct (Z.gtb_spec (Z.of_nat (List.length files))
              (3 - Z.of_nat (List.length (Page.uploadedImages s)))) as [Hmany|Hfit].
  - right. split; [left; lia|]. split; [reflexivity|]. eexists. reflexivity.
  - pose proof (read_all_spec files) as Hread.
    destruct (Page.read_all files) as [dataUris|].
    + left. exists dataUris. subst files. rewrite length_map in Hfit.
      repeat split; try reflexivity. lia.
    + right. split; [now right|]. split; [reflexivity|]. eexists. reflexivity.
Qed.

Lemma filter_indexed_keeps_all {A} (l : list A) (j i : nat) :
  i < j -> filter_indexed (fun _ k => negb (k =? i)%nat) j l = l.
Proof.
  revert j. induction l as [|x l IH]; intros j Hlt; [reflexivity|].
  cbn. destruct (Nat.eqb_spec j i); [lia|]. cbn. f_equal. apply IH. lia.
Qed.

Lemma remove_at_is_filter {A} (l : list A) (index i : nat) :
  Page.remove_at index l
  = filter_indexed (fun _ j => negb (j =? i + index)%nat) i l.
Proof.
  revert index i. induction l as [|x l IH]; intros index i; [now destruct index|].
  destruct index as [|index]; cbn [Page.remove_at filter_indexed].
  - rewrite Nat.add_0_r, Nat.eqb_refl. cbn [negb].
    symmetry. apply filter_indexed_keeps_all. lia.
  - destruct (Nat.eqb_spec i (i + S index)); [lia|]. cbn [negb]. f_equal.
    rewrite (IH index (S i)). replace (S i + index) with (i + S index) by lia.
    reflexivity.
Qed.

Lemma remove_at_firstn_skipn {A} (l : list A) (index : nat) :
  Page.remove_at index l = (firstn index l ++ skipn (S index) l)%list.
Proof.
  revert index. induction l as [|x l IH]; intros index; [now destruct index|].
  destruct index as [|index]; cbn [Page.remove_at firstn skipn app]; [reflexivity|].
  f_equal. apply IH.
Qed.

(** X15.  Removing the upload at [index] is the indexed filter of the
    source: it drops exactly the image at that position and keeps the
    others in order, so one image fewer remains; an index beyond the
    uploads changes nothing. *)
Theorem remove_drops_exactly_one (index : nat) (s : Page.State) :
  let before := Page.uploadedImages s in
  let after := Page.uploadedImages (Page.handleRemoveImage index s) in
  after = filter_indexed (fun _ i => negb (i =? index)%nat) 0 before
  /\ after = (firstn index before ++ skipn (S index) before)%list
  /\ (index < List.length before -> S (List.length after) = List.length before)
  /\ (List.length before <= index -> after = before).
Proof.
  cbn zeta. unfold Page.handleRemoveImage. cbn [Page.uploadedImages Page.setUploadedImages].
  split; [exact (remove_at_is_filter (Page.uploadedImages s) index 0)|].
  split; [apply remove_at_firstn_skipn|].
  rewrite remove_at_firstn_skipn. split; intros Hindex.
  - rewrite length_app, length_firstn, length_skipn. lia.
  - rewrite firstn_all2 by exact Hindex. rewrite skipn_all2 by lia. apply app_nil_r.
Qed.

Lemma remove_drops_exactly_one_witness :
  0 < List.length (Page.uploadedImages page_with_uploads)
  /\ S (List.length (Page.uploadedImages (Page.handleRemoveImage 0 page_with_uploads)))
     = List.length (Page.uploadedImages page_with_uploads).
Proof.
  assert (H : 0 < List.length (Page.uploadedImages page_with_uploads)) by (cbn; lia).
  split; [exact H|].
  exact (proj1 (proj2 (proj2 (remove_drops_exactly_one 0 page_with_uploads))) H).
Defined.

(** ** Sessions *)

Lemma generate_action_normal (ai : Provider) (input : GenerateThumbnail.Input)
    (fx : Effects) :
  exists r fx',
    Actions.generateThumbnailAction ai input fx = (Normal r, fx')
    /\ calls fx' = (calls fx ++ [GenerateThumbnail.request input])%list.
Proof.
  rewrite generate_action_run. cbn zeta.
  destruct (ai _ _) as [response|e]; [|do 2 eexists; split; reflexivity].
  destruct (media_url (media response)) as [u|]; [|do 2 eexists; split; reflexivity].
  destruct (truthy u); do 2 eexists; split; reflexivity.
Qed.

Lemma edit_action_normal (ai : Provider) (input : EditThumbnail.Input) (fx : Effects) :
  exists r fx',
    Actions.editThumbnailAction ai input fx = (Normal r, fx')
    /\ calls fx' = (calls fx ++ [EditThumbnail.request input])%list.
Proof.
  rewrite edit_action_run. cbn zeta.
  destruct (ai _ _) as [response|e]; [|do 2 eexists; split; reflexivity].
  destruct (media_url (media response)) as [u|]; [|do 2 eexists; split; reflexivity].
  destruct (truthy u); do 2 eexists; split; reflexivity.
Qed.

(** Closes a goal that asks for the requests an event sent when it sent
    none. *)
Ltac no_request :=
  exists []; rewrite app_nil_r; split; [reflexivity | first [reflexivity | cbn; lia]].

(** What one event does to the uploads, to the busy flags and to the list
    of provider requests. *)
Lemma handle_step (ai : Provider) (e : Page.Event) (s : Page.State) (fx : Effects) :
  (List.length (Page.uploadedImages s) <= 3 ->
   List.length (Page.uploadedImages (fst (Page.handle ai e s fx))) <= 3)
  /\ (PageView.allDisabled s = false ->
      PageView.allDisabled (fst (Page.handle ai e s fx)) = false)
  /\ exists sent,
       calls (snd (Page.handle ai e s fx)) = (calls fx ++ sent)%list
       /\ match e with
          | Page.ClickOptimize | Page.ClickGenerate _ | Page.ClickRefine =>
              List.length sent <= 1
          | _ => sent = []
          end.
Proof.
  unfold PageView.allDisabled.
  destruct e; cbn [Page.handle fst snd];
    try (split; [auto|]; split; [auto|]; no_request).
  - (* files chosen *)
    split; [|split; [|no_request]].
    + intros Hbound. unfold Page.handleImageChange, Page.MAX_IMAGES.
      destruct files as [files|]; [|exact Hbound].
      destruct (Z.gtb_spec (Z.of_nat (List.length files))
                  (3 - Z.of_nat (List.length (Page.uploadedImages s))));
        [exact Hbound|].
      pose proof (read_all_spec files) as Hread.
      destruct (Page.read_all files) as [dataUris|]; [|exact Hbound].
      subst files. rewrite length_map in *. cbn. rewrite length_app. lia.
    + unfold Page.handleImageChange. destruct files as [files|]; [|auto].
      destruct (_ >? _)%Z; [auto|]. destruct (Page.read_all files); auto.
  - (* an upload removed *)
    split; [|split; [auto|no_request]].
    intros Hbound. unfold Page.handleRemoveImage. cbn.
    rewrite remove_at_firstn_skipn, length_app, length_firstn, length_skipn. lia.
  - (* optimize *)
    unfold Page.handleOptimizePrompt.
    destruct (truthy (Page.prompt s)); cbn [negb];
      [|split; [auto|]; split; [auto|]; no_request].
    destruct (optimize_action_run ai
                (OptimizePrompt.mkInput (Page.prompt s) (Page.aspectRatio s)
                   (nth_error (Page.uploadedImages s) 0)
                   (nth_error (Page.uploadedImages s) 1)
                   (nth_error (Page.uploadedImages s) 2)) fx)
      as [optimized [fx' [Hrun [_ Hcalls]]]].
    rewrite Hrun. cbn.
    split; [auto|]. split.
    + intros Hidle. apply orb_false_elim in Hidle. destruct Hidle as [Hidle _].
      now rewrite Hidle.
    + eexists. split; [exact Hcalls | cbn; lia].
  - (* generate *)
    unfold Page.handleGenerate.
    destruct (truthy (Page.optimizedPrompt s)); cbn [negb];
      [|split; [auto|]; split; [auto|]; no_request].
    destruct (generate_action_normal ai (Page.generate_input s) fx)
      as [r [fx' [Hrun Hcalls]]].
    rewrite Hrun. destruct r as [thumbnail|error]; cbn;
      (split; [auto|]); (split; [|eexists; split; [exact Hcalls | cbn; lia]]);
      intros Hidle; apply orb_false_elim in Hidle; destruct Hidle as [Hidle ->];
      apply orb_false_elim in Hidle; destruct Hidle as [_ ->]; reflexivity.
  - (* refine *)
    unfold Page.handleEdit.
    destruct (truthy (Page.editPrompt s));
      [|split; [auto|]; split; [auto|]; no_request].
    destruct (Page.generatedThumbnail s) as [base|];
      [|split; [auto|]; split; [auto|]; no_request].
    destruct (truthy base);
      [|split; [auto|]; split; [auto|]; no_request].
    destruct (edit_action_normal ai
                (EditThumbnail.mkInput base (Page.editPrompt s) (Page.aspectRatio s)) fx)
      as [r [fx' [Hrun Hcalls]]].
    rewrite Hrun. destruct r as [thumbnail|error]; cbn;
      (split; [auto|]); (split; [|eexists; split; [exact Hcalls | cbn; lia]]);
      intros Hidle; apply orb_false_elim in Hidle; destruct Hidle as [Hidle ->];
      apply orb_false_elim in Hidle; destruct Hidle as [-> _]; reflexivity.
  - (* use as style reference *)
    destruct (Page.generatedThumbnail s);
      (split; [auto|]); (split; [auto|]); no_request.
  - (* a history tile *)
    destruct (nth_error (Page.shown_history s) position);
      (split; [auto|]); (split; [auto|]); no_request.
Qed.

Lemma run_preserves (ai : Provider) (P : Page.State -> Prop) :
  (forall e s fx, P s -> P (fst (Page.handle ai e s fx))) ->
  forall events s fx, P s -> P (fst (Page.run ai events s fx)).
Proof.
  intros Hstep. induction events as [|e events IH]; intros s fx Hs; [exact Hs|].
  cbn [Page.run]. specialize (Hstep e s fx Hs).
  destruct (Page.handle ai e s fx) as [s1 fx1]. now apply IH.
Qed.



(** X17.  No handler leaves the page busy: since the actions always
    complete, each handler that raises [isOptimizing], [isLoading] or
    [isEditing] lowers it again, so after any session from the initial
    page, or from any page that is not busy, the controls are enabled. *)
Theorem page_is_never_left_busy (ai : Provider) (events : list Page.Event)
    (fx : Effects) :
  (forall s, PageView.allDisabled s = false ->
     PageView.allDisabled (fst (Page.run ai events s fx)) = false)
  /\ PageView.allDisabled (fst (Page.run ai events Page.initial fx)) = false.
Proof.
  assert (Hrun : forall s, PageView.allDisabled s = false ->
            PageView.allDisabled (fst (Page.run ai events s fx)) = false).
  { intros s. apply (run_preserves ai (fun s => PageView.allDisabled s = false)).
    intros e s0 fx0. apply handle_step. }
  split; [exact Hrun|]. now apply Hrun.
Qed.

Lemma page_is_never_left_busy_witness :
  PageView.allDisabled Page.initial = false
  /\ PageView.allDisabled
       (fst (Page.run failing_provider sample_session Page.initial no_effects)) = false.
Proof.
  split; [reflexivity|].
  exact (proj1 (page_is_never_left_busy failing_provider sample_session no_effects)
           Page.initial eq_refl).
Defined.

(** X18.  Only three things the user can do reach the provider, the
    clicks on Optimize, on Generate and on Refine, and each sends at most
    one request; every other event sends none.  A session therefore sends
    at most as many requests as it has events. *)
Theorem events_send_at_most_one_request (ai : Provider) :
  (forall e s fx,
      exists sent,
        calls (snd (Page.handle ai e s fx)) = (calls fx ++ sent)%list
        /\ match e with
           | Page.ClickOptimize | Page.ClickGenerate _ | Page.ClickRefine =>
               List.length sent <= 1
           | _ => sent = []
           end)
  /\ (forall events s fx,
      List.length (calls (snd (Page.run ai events s fx)))
      <= List.length (calls fx) + List.length events).
Proof.
  split; [intros e s fx; apply handle_step|].
  induction events as [|e events IH]; intros s fx; [cbn; lia|].
  cbn [Page.run List.length].
  destruct (handle_step ai e s fx) as [_ [_ [sent [Hsent Hshort]]]].
  destruct (Page.handle ai e s fx) as [s1 fx1]. cbn [snd] in Hsent.
  specialize (IH s1 fx1). rewrite Hsent, length_app in IH.
  assert (List.length sent <= 1) by (destruct e; subst; cbn; lia).
  lia.
Qed.

(** ** What a click shows *)

(** X19.  A generation that fails because the provider throws: the
    thumbnail shown, if any, is gone (it was cleared before the call and is
    not restored), one "Generation Failed" toast carries the provider's
    message, or the stock sentence when that message is empty, the page
    stops loading, and the optimized prompt and the history are as
    before. *)
Theorem failed_generation_clears_the_thumbnail
    (ai : Provider) (now : Z) (s : Page.State) (fx : Effects) (e : Error) :
  truthy (Page.optimizedPrompt s) = true ->
  ai (List.length (calls fx)) (GenerateThumbnail.request (Page.generate_input s))
    = Throw e ->
  let s' := fst (Page.handleGenerate ai now s fx) in
  Page.generatedThumbnail s' = None
  /\ Page.toasts s'
     = (Page.toasts s
        ++ [Page.mkToast "Generation Failed"
              (if truthy (message e) then message e
               else "An unexpected error occurred. Please try again.")])%list
  /\ Page.isLoading s' = false
  /\ Page.optimizedPrompt s' = Page.optimizedPrompt s
  /\ Page.generationHistory s' = Page.generationHistory s.
Proof.
  intros Hprompt Hthrow. cbn zeta. unfold Page.handleGenerate.
  rewrite Hprompt. cbn [negb].
  rewrite generate_action_run. cbn zeta. rewrite Hthrow.
  repeat split.
Qed.

Lemma failed_generation_clears_the_thumbnail_witness :
  truthy (Page.optimizedPrompt page_with_thumbnail) = true
  /\ Page.generatedThumbnail page_with_thumbnail = Some "data:image/png;base64,AAAA"
  /\ Page.generatedThumbnail
       (fst (Page.handleGenerate failing_provider 1700000000000 page_with_thumbnail
               no_effects)) = None.
Proof.
  split; [reflexivity|]. split; [reflexivity|].
  exact (proj1 (@failed_generation_clears_the_thumbnail failing_provider
                  1700000000000%Z page_with_thumbnail no_effects _ eq_refl eq_refl)).
Defined.

(** X20.  A generation the provider answers with an image: the page
    shows that image, shows no toast and stops loading.  The one request
    sent carries, before the text, the selected style reference in the
    first slot when one is selected, taking the place of the first upload,
    then the second and third upload; its text is "User prompt: " followed
    by the optimized prompt and the consistency sentence, if any. *)
Theorem generation_shows_the_image
    (ai : Provider) (now : Z) (s : Page.State) (fx : Effects)
    (response : GenerateResponse) (u : string) :
  truthy (Page.optimizedPrompt s) = true ->
  ai (List.length (calls fx)) (GenerateThumbnail.request (Page.generate_input s))
    = Normal response ->
  media_url (media response) = Some u ->
  truthy u = true ->
  let s' := fst (Page.handleGenerate ai now s fx) in
  Page.generatedThumbnail s' = Some u
  /\ Page.toasts s' = Page.toasts s
  /\ Page.isLoading s' = false
  /\ calls (snd (Page.handleGenerate ai now s fx))
     = (calls fx ++ [GenerateThumbnail.request (Page.generate_input s)])%list
  /\ prompt (GenerateThumbnail.request (Page.generate_input s))
     = (media_parts
          [if truthy (Page.selectedStyleReference s)
           then Some (Page.selectedStyleReference s)
           else nth_error (Page.uploadedImages s) 0;
           nth_error (Page.uploadedImages s) 1;
           nth_error (Page.uploadedImages s) 2]
        ++ [TextPart ("User prompt: " ++ Page.enhancedPrompt s)])%list.
Proof.
  intros Hprompt Hanswer Hurl Htruthy. cbn zeta. unfold Page.handleGenerate.
  rewrite Hprompt. cbn [negb].
  rewrite generate_action_run. cbn zeta. rewrite Hanswer, Hurl, Htruthy.
  repeat split.
Qed.

Lemma generation_shows_the_image_witness :
  truthy (Page.optimizedPrompt page_ready) = true
  /\ truthy (sample_image 0) = true
  /\ Page.generatedThumbnail
       (fst (Page.handleGenerate helpful_provider 1700000000000 page_ready no_effects))
     = Some (sample_image 0).
Proof.
  split; [reflexivity|]. split; [reflexivity|].
  exact (proj1 (@generation_shows_the_image helpful_provider 1700000000000%Z page_ready
                  no_effects _ (sample_image 0) eq_refl eq_refl eq_refl eq_refl)).
Defined.

(** X21.  A refinement the provider answers with an image: the request
    carried the thumbnail on show as its base image, followed by "User edit
    prompt: " and the text typed; the new image replaces the thumbnail, so
    the next refinement starts from it, the edit box is emptied, and the
    history is not touched: edits are not recorded there. *)
Theorem refinement_replaces_the_thumbnail
    (ai : Provider) (s : Page.State) (fx : Effects)
    (base : string) (response : GenerateResponse) (u : string) :
  truthy (Page.editPrompt s) = true ->
  Page.generatedThumbnail s = Some base ->
  truthy base = true ->
  let sent := EditThumbnail.request
                (EditThumbnail.mkInput base (Page.editPrompt s) (Page.aspectRatio s)) in
  ai (List.length (calls fx)) sent = Normal response ->
  media_url (media response) = Some u ->
  truthy u = true ->
  let s' := fst (Page.handleEdit ai s fx) in
  calls (snd (Page.handleEdit ai s fx)) = (calls fx ++ [sent])%list
  /\ prompt sent = [MediaPart base; TextPart ("User edit prompt: " ++ Page.editPrompt s)]
  /\ Page.generatedThumbnail s' = Some u
  /\ Page.editPrompt s' = ""
  /\ Page.isEditing s' = false
  /\ Page.toasts s' = Page.toasts s
  /\ Page.generationHistory s' = Page.generationHistory s.
Proof.
  intros Hedit Hbase Htruthy sent Hanswer Hurl Hu. cbn zeta. unfold Page.handleEdit.
  rewrite Hedit, Hbase, Htruthy.
  rewrite edit_action_run. cbn zeta. fold sent. rewrite Hanswer, Hurl, Hu.
  repeat split.
Qed.

Lemma refinement_replaces_the_thumbnail_witness :
  truthy (Page.editPrompt page_editing) = true
  /\ Page.generatedThumbnail page_editing = Some "data:image/png;base64,AAAA"
  /\ Page.generatedThumbnail (fst (Page.handleEdit helpful_provider page_editing no_effects))
     = Some (sample_image 0).
Proof.
  split; [reflexivity|]. split; [reflexivity|].
  exact (proj1 (proj2 (proj2
           (@refinement_replaces_the_thumbnail helpful_provider page_editing no_effects
              "data:image/png;base64,AAAA" _ (sample_image 0)
              eq_refl eq_refl eq_refl eq_refl eq_refl eq_refl)))).
Defined.

(** X22.  A refinement that fails, because the provider throws or returns
    no image, loses nothing: the thumbnail on show and the text in the edit
    box stay, one "Edit Failed" toast is shown and the page stops
    editing. *)
Theorem failed_refinement_keeps_the_thumbnail
    (ai : Provider) (s : Page.State) (fx : Effects) (base : string) :
  truthy (Page.editPrompt s) = true ->
  Page.generatedThumbnail s = Some base ->
  truthy base = true ->
  (forall u, fst (Actions.editThumbnailAction ai
                    (EditThumbnail.mkInput base (Page.editPrompt s) (Page.aspectRatio s))
                    fx) <> Normal (Actions.Success u)) ->
  let s' := fst (Page.handleEdit ai s fx) in
  Page.generatedThumbnail s' = Some base
  /\ Page.editPrompt s' = Page.editPrompt s
  /\ Page.isEditing s' = false
  /\ exists error,
       Page.toasts s'
       = (Page.toasts s ++ [Page.mkToast "Edit Failed" (Page.error_description error)])%list.
Proof.
  intros Hedit Hbase Htruthy Hfails. cbn zeta. unfold Page.handleEdit.
  rewrite Hedit, Hbase, Htruthy.
  destruct (edit_action_normal ai
              (EditThumbnail.mkInput base (Page.editPrompt s) (Page.aspectRatio s)) fx)
    as [r [fx' [Hrun _]]].
  rewrite Hrun in Hfails |- *. destruct r as [u|error]; [now elim (Hfails u)|].
  cbn. rewrite Hbase. repeat split. now exists error.
Qed.

Lemma failed_refinement_keeps_the_thumbnail_witness :
  truthy (Page.editPrompt page_editing) = true
  /\ Page.generatedThumbnail page_editing = Some "data:image/png;base64,AAAA"
  /\ Page.generatedThumbnail (fst (Page.handleEdit empty_provider page_editing no_effects))
     = Some "data:image/png;base64,AAAA".
Proof.
  split; [reflexivity|]. split; [reflexivity|].
  refine (proj1 (@failed_refinement_keeps_the_thumbnail empty_provider page_editing
                   no_effects "data:image/png;base64,AAAA" eq_refl eq_refl eq_refl _)).
  intros u. discriminate.
Defined.

(** X23.  A click on Optimize with a prompt typed in always ends with a
    non-empty optimized prompt on the page, whatever the provider does: the
    "Optimization Failed" toast is never shown, the old thumbnail is
    cleared, and the Generate button, which needs an optimized prompt, is
    usable. *)
Theorem optimize_click_always_yields_a_prompt
    (ai : Provider) (s : Page.State) (fx : Effects) :
  truthy (Page.prompt s) = true ->
  let s' := fst (Page.handleOptimizePrompt ai s fx) in
  truthy (Page.optimizedPrompt s') = true
  /\ Page.toasts s' = Page.toasts s
  /\ Page.generatedThumbnail s' = None
  /\ Page.isOptimizing s' = false
  /\ Page.prompt s' = Page.prompt s.
Proof.
  intros Hprompt. cbn zeta. unfold Page.handleOptimizePrompt.
  rewrite Hprompt. cbn [negb].
  destruct (optimize_action_run ai
              (OptimizePrompt.mkInput (Page.prompt s) (Page.aspectRatio s)
                 (nth_error (Page.uploadedImages s) 0)
                 (nth_error (Page.uploadedImages s) 1)
                 (nth_error (Page.uploadedImages s) 2)) fx)
    as [optimized [fx' [Hrun [Htruthy _]]]].
  rewrite Hrun. cbn. repeat split. exact Htruthy.
Qed.

Lemma optimize_click_always_yields_a_prompt_witness :
  truthy (Page.prompt page_with_prompt) = true
  /\ truthy (Page.optimizedPrompt
               (fst (Page.handleOptimizePrompt failing_provider page_with_prompt
                       no_effects))) = true.
Proof.
  split; [reflexivity|].
  exact (proj1 (optimize_click_always_yields_a_prompt failing_provider page_with_prompt
                  no_effects eq_refl)).
Defined.

(** X24.  A click without its required input never reaches the server:
    Optimize without a prompt, Generate without an optimized prompt and
    Refine without an edit text or without a thumbnail each show one toast
    and change nothing else, and no request is sent. *)
Theorem missing_input_sends_nothing (ai : Provider) (s : Page.State) (fx : Effects) :
  (truthy (Page.prompt s) = false ->
   Page.handleOptimizePrompt ai s fx
   = (Page.toast (Page.mkToast "Missing Prompt" "Please provide a prompt to optimize.") s,
      fx))
  /\ (forall now,
      truthy (Page.optimizedPrompt s) = false ->
      Page.handleGenerate ai now s fx
      = (Page.toast (Page.mkToast "Missing Optimized Prompt"
                       "Please optimize a prompt before generating.") s,
         fx))
  /\ (truthy (Page.editPrompt s) = false
      \/ truthy_opt (Page.generatedThumbnail s) = false ->
      Page.handleEdit ai s fx
      = (Page.toast (Page.mkToast "Missing Edit Prompt"
                       "Please describe the changes you want to make.") s,
         fx)).
Proof.
  split; [|split].
  - intros Hnone. unfold Page.handleOptimizePrompt. now rewrite Hnone.
  - intros now Hnone. unfold Page.handleGenerate. now rewrite Hnone.
  - intros Hnone. unfold Page.handleEdit.
    destruct (truthy (Page.editPrompt s)); [|reflexivity].
    destruct Hnone as [Hnone|Hnone]; [discriminate|].
    destruct (Page.generatedThumbnail s) as [base|]; [|reflexivity].
    cbn in Hnone. now rewrite Hnone.
Qed.

Lemma missing_input_sends_nothing_witness :
  truthy (Page.prompt Page.initial) = false
  /\ snd (Page.handleOptimizePrompt helpful_provider Page.initial no_effects)
     = no_effects.
Proof.
  split; [reflexivity|].
  rewrite (proj1 (missing_input_sends_nothing helpful_provider Page.initial no_effects)
             eq_refl).
  reflexivity.
Defined.

Lemma last_after {A} (l m : list A) (d : A) :
  m <> [] -> last (l ++ m) d = last m d.
Proof.
  intros Hm. induction l as [|x l IH]; [reflexivity|].
  cbn [app]. rewrite <- IH.
  destruct (l ++ m)%list eqn:E; [|reflexivity].
  apply app_eq_nil in E. now destruct E.
Qed.

(** X25.  The history tiles are the last six entries: what the page shows
    is the end of the history, in the same order, all of it when it has at
    most six entries and exactly six otherwise. *)
Theorem page_shows_the_last_six (s : Page.State) :
  (exists hidden,
      Page.generationHistory s = (hidden ++ Page.shown_history s)%list)
  /\ List.length (Page.shown_history s)
     = Nat.min 6 (List.length (Page.generationHistory s))
  /\ (List.length (Page.generationHistory s) <= 6 ->
      Page.shown_history s = Page.generationHistory s)
  /\ last (Page.shown_history s) (HistoryEntry.make "" "" 0 R1_1)
     = last (Page.generationHistory s) (HistoryEntry.make "" "" 0 R1_1).
Proof.
  unfold Page.shown_history.
  set (history := Page.generationHistory s).
  set (n := List.length history - 6).
  assert (Hsplit : history = (firstn n history ++ skipn n history)%list)
    by (symmetry; apply firstn_skipn).
  split; [now exists (firstn n history)|].
  split; [rewrite length_skipn; unfold n; lia|].
  split.
  - intros Hshort. unfold n. replace (List.length history - 6) with 0 by lia.
    reflexivity.
  - destruct (skipn n history) as [|entry shown] eqn:Hshown.
    + assert (Hlen : List.length (skipn n history) = 0) by now rewrite Hshown.
      rewrite length_skipn in Hlen. unfold n in Hlen.
      assert (Hempty : List.length history = 0) by lia.
      now destruct history.
    + rewrite Hsplit. symmetry. apply last_after. discriminate.
Qed.

Lemma page_shows_the_last_six_witness :
  List.length (Page.generationHistory page_ready) <= 6
  /\ Page.shown_history page_ready = Page.generationHistory page_ready.
Proof.
  assert (H : List.length (Page.generationHistory page_ready) <= 6) by (cbn; lia).
  split; [exact H|].
  exact (proj1 (proj2 (proj2 (page_shows_the_last_six page_ready))) H).
Defined.

(** ** The name of a download *)

Lemma split_without (sep : ascii) (s : string) :
  has_char sep s = false -> PageView.split sep s = [s].
Proof.
  induction s as [|c s IH]; [reflexivity|].
  cbn [has_char PageView.split]. intros Hnone.
  apply orb_false_elim in Hnone. destruct Hnone as [Hc Hs].
  rewrite Hc, (IH Hs). reflexivity.
Qed.

Lemma split_at_first (sep : ascii) (a b : string) :
  has_char sep a = false ->
  PageView.split sep (a ++ String sep b) = a :: PageView.split sep b.
Proof.
  induction a as [|c a IH]; intros Hnone.
  - cbn [append PageView.split]. now rewrite Ascii.eqb_refl.
  - cbn [has_char] in Hnone. apply orb_false_elim in Hnone. destruct Hnone as [Hc Ha].
    cbn [append PageView.split]. rewrite Hc, (IH Ha). reflexivity.
Qed.

(** X26.  The file a download is saved as: for a thumbnail of the form
    [kind/subtype;rest], as a data URI is ("data:image/png;base64,..."),
    the name is "thumbnail-" followed by the time, a period and the
    subtype; when the subtype is empty, or when there is no slash before
    the first semicolon, the extension is "png".  Without a thumbnail
    nothing is downloaded. *)
Theorem download_is_named_after_the_subtype (now : Z) (s : Page.State)
    (kind subtype rest : string) :
  has_char ";" kind = false ->
  has_char "/" kind = false ->
  (has_char ";" subtype = false ->
   has_char "/" subtype = false ->
   Page.generatedThumbnail s = Some (kind ++ "/" ++ subtype ++ ";" ++ rest) ->
   PageView.handleDownload_link now s
   = Some (kind ++ "/" ++ subtype ++ ";" ++ rest,
           "thumbnail-" ++ Z_toString now ++ "."
           ++ (if truthy subtype then subtype else "png")))
  /\ (Page.generatedThumbnail s = Some (kind ++ ";" ++ rest) ->
      PageView.handleDownload_link now s
      = Some (kind ++ ";" ++ rest, "thumbnail-" ++ Z_toString now ++ ".png"))
  /\ (truthy_opt (Page.generatedThumbnail s) = false ->
      PageView.handleDownload_link now s = None).
Proof.
  intros Hsemi Hslash. split; [|split].
  - intros Hsub_semi Hsub_slash Hshown.
    unfold PageView.handleDownload_link. rewrite Hshown.
    assert (Htruthy : truthy (kind ++ "/" ++ subtype ++ ";" ++ rest) = true)
      by (destruct kind; reflexivity).
    rewrite Htruthy. cbn [negb]. do 3 f_equal.
    unfold PageView.fileExtension.
    assert (Hfirst : has_char ";" (kind ++ "/" ++ subtype) = false).
    { clear - Hsemi Hsub_semi. induction kind as [|c kind IH]; cbn.
      - exact Hsub_semi.
      - cbn in Hsemi. apply orb_false_elim in Hsemi. destruct Hsemi as [-> Hk].
        cbn. now apply IH. }
    replace (kind ++ "/" ++ subtype ++ ";" ++ rest)
      with ((kind ++ "/" ++ subtype) ++ String ";" rest)
      by (rewrite !append_assoc; reflexivity).
    rewrite (split_at_first ";" _ rest Hfirst). cbn [hd].
    change (kind ++ "/" ++ subtype) with (kind ++ String "/" subtype).
    rewrite (split_at_first "/" kind subtype Hslash).
    rewrite (split_without "/" subtype Hsub_slash). reflexivity.
  - intros Hshown. unfold PageView.handleDownload_link. rewrite Hshown.
    assert (Htruthy : truthy (kind ++ ";" ++ rest) = true)
      by (destruct kind; reflexivity).
    rewrite Htruthy. cbn [negb]. do 3 f_equal.
    unfold PageView.fileExtension.
    change (kind ++ ";" ++ rest) with (kind ++ String ";" rest).
    rewrite (split_at_first ";" kind rest Hsemi). cbn [hd].
    rewrite (split_without "/" kind Hslash). reflexivity.
  - intros Hnone. unfold PageView.handleDownload_link.
    destruct (Page.generatedThumbnail s) as [thumbnail|]; [|reflexivity].
    cbn in Hnone. now rewrite Hnone.
Qed.

Lemma download_is_named_after_the_subtype_witness :
  has_char ";" "data:image" = false
  /\ has_char "/" "data:image" = false
  /\ has_char ";" "jpeg" = false
  /\ has_char "/" "jpeg" = false
  /\ PageView.handleDownload_link 1700000000000 page_with_jpeg
     = Some ("data:image/jpeg;base64,BBBB", "thumbnail-1700000000000.jpeg").
Proof.
  repeat (split; [reflexivity|]).
  exact (proj1 (@download_is_named_after_the_subtype 1700000000000%Z page_with_jpeg
                  "data:image" "jpeg" "base64,BBBB" eq_refl eq_refl)
           eq_refl eq_refl eq_refl).
Defined.

Lemma image_parts_keep_the_given_images_witness :
  In (MediaPart "data:image/png;base64,AAAA")
     (media_parts [Some "data:image/png;base64,AAAA"; Some ""; None])
  /\ exists u,
       MediaPart "data:image/png;base64,AAAA" = MediaPart u /\ truthy u = true.
Proof.
  assert (H : In (MediaPart "data:image/png;base64,AAAA")
                (media_parts [Some "data:image/png;base64,AAAA"; Some ""; None]))
    by (cbn; now left).
  split; [exact H|].
  destruct (proj2 (proj2 (proj2 (image_parts_keep_the_given_images
                                   (Some "data:image/png;base64,AAAA") (Some "") None)))
              _ H) as [u [Hpart [Htruthy _]]].
  exists u. split; [exact Hpart | exact Htruthy].
Defined.
